(** * Space-weather dashboard: data normalisation, sparkline and refresh loop

    A shallow embedding of [data_fetcher.py], [plotter.py] and the refresh
    loop of [dashboard.py], with the properties of the specification proved
    (or refuted) on it.

    Conventions of the embedding.
    - A Python value produced by [json.loads], and every dict or list the
      program builds from such values, is a [json] term.  A dict is the list of
      its items (keys are distinct in a Python dict; lookup takes the first
      binding).
    - A Python [str] is a [string]; each [ascii] stands for one character.
      The sparkline palette, whose characters are outside that range, is a
      list of Unicode code points.
    - A Python [float] is a [pyfloat]: an IEEE 754 binary64 number, with the
      rounding, overflow, underflow, signed zeros, infinities and nan of the
      format.
    - A call that may raise returns a [result]; [Raise e] is the exception
      propagating to the caller. *)

From Stdlib Require Import ZArith List String Ascii Bool Lia SpecFloat.
Import ListNotations.

Set Implicit Arguments.

(** ** Exceptions and results *)

(** The exception classes the program's calls raise.  [KeyboardInterrupt] is
    the only one that does not derive from [Exception]. *)
Inductive pyexc : Type :=
| KeyboardInterrupt
| RequestException
| AttributeError
| TypeError
| ValueError
| KeyError
| IndexError
| OverflowError
| ZeroDivisionError
| OtherException (name : string).

(** [isinstance(e, Exception)] *)
Definition is_Exception (e : pyexc) : bool :=
  match e with
  | KeyboardInterrupt => false
  | _ => true
  end.

(** [isinstance(e, requests.exceptions.RequestException)] *)
Definition is_RequestException (e : pyexc) : bool :=
  match e with
  | RequestException => true
  | _ => false
  end.

Inductive result (A : Type) : Type :=
| Ok (a : A)
| Raise (e : pyexc).

Arguments Ok {A} a.
Arguments Raise {A} e.

Definition bind {A B : Type} (m : result A) (k : A -> result B) : result B :=
  match m with
  | Ok a => k a
  | Raise e => Raise e
  end.

Notation "x <- m ;; k" := (bind m (fun x => k))
  (at level 61, m at next level, right associativity).

Definition raises {A : Type} (m : result A) : Prop :=
  exists e, m = Raise e.

(** A [for] loop that appends one computed item per element: the first
    element whose body raises ends the loop with that exception. *)
Fixpoint mapM {A B : Type} (f : A -> result B) (l : list A) : result (list B) :=
  match l with
  | [] => Ok []
  | a :: l' => b <- f a ;; bs <- mapM f l' ;; Ok (b :: bs)
  end.

(** ** Python floats *)

(** A Python [float] is an IEEE 754 binary64 number: 53 bits of precision,
    exponents below 1024.  The operations are those of the Standard
    Library's [SpecFloat], which round to nearest, ties to even, overflow to
    an infinity and underflow through the subnormal numbers to a signed
    zero. *)
Definition prec : Z := 53.
Definition emax : Z := 1024.

Definition pyfloat : Type := spec_float.

(** The floats in their unique binary64 representation; every float the
    program reads or computes is one, and the comparisons below are the
    numeric ones on them. *)
Definition is_binary64 (x : pyfloat) : bool := valid_binary prec emax x.

Definition is_finite (x : pyfloat) : Prop :=
  match x with
  | S754_zero _ | S754_finite _ _ _ => True
  | _ => False
  end.

(** [a < b] *)
Definition f_lt (a b : pyfloat) : bool := SFltb a b.

(** [a > b] *)
Definition f_gt (a b : pyfloat) : bool := f_lt b a.

(** [a == b] *)
Definition f_eq (a b : pyfloat) : bool := SFeqb a b.

(** [a - b] *)
Definition f_sub (a b : pyfloat) : pyfloat := SFsub prec emax a b.

(** [a + b] *)
Definition f_add (a b : pyfloat) : pyfloat := SFadd prec emax a b.

(** [a * b] *)
Definition f_mul (a b : pyfloat) : pyfloat := SFmul prec emax a b.

Definition is_zero (x : pyfloat) : bool :=
  match x with
  | S754_zero _ => true
  | _ => false
  end.

(** [a / b]: a zero divisor raises whatever the dividend is. *)
Definition f_div (a b : pyfloat) : result pyfloat :=
  if is_zero b then Raise ZeroDivisionError else Ok (SFdiv prec emax a b).

(** [int(x)]: truncation toward zero. *)
Definition f_int (x : pyfloat) : result Z :=
  match x with
  | S754_zero _ => Ok 0%Z
  | S754_finite s m e =>
      let a :=
        match e with
        | Zneg k => (Z.pos m / 2 ^ Z.pos k)%Z
        | _ => (Z.pos m * 2 ^ e)%Z
        end in
      Ok (if s then (- a)%Z else a)
  | S754_infinity _ => Raise OverflowError
  | S754_nan => Raise ValueError
  end.

(** The float nearest to the integer [z]. *)
Definition f_of_Z (z : Z) : pyfloat := binary_normalize prec emax z 0 false.

(** The mantissa of the float 10.0, which is [ten_mantissa * 2 ^ -49]. *)
Definition ten_mantissa : positive := 5629499534213120.

(** [float(z)] for an [int]: an integer that rounds beyond the largest float
    raises. *)
Definition float_of_int (z : Z) : result pyfloat :=
  match f_of_Z z with
  | S754_infinity _ => Raise OverflowError
  | x => Ok x
  end.

(** The float nearest to [m * 10 ^ e10], for [m >= 0], with the sign [neg]. *)
Definition f_of_decimal (neg : bool) (m : Z) (e10 : Z) : pyfloat :=
  match m with
  | Zpos p =>
      match e10 with
      | Zneg k =>
          SFdiv prec emax (S754_finite neg p 0)
                (S754_finite false (Pos.pow 10 k) 0)
      | _ =>
          binary_normalize prec emax
            (if neg then (- (m * 10 ^ e10))%Z else (m * 10 ^ e10)%Z) 0 false
      end
  | _ => S754_zero neg
  end.

(** ** Strings *)

Local Open Scope string_scope.

(** [s[:n]] *)
Fixpoint str_take (n : nat) (s : string) : string :=
  match n, s with
  | S n', String c s' => String c (str_take n' s')
  | _, _ => EmptyString
  end.

(** [c in s] for a one-character [c] *)
Fixpoint str_mem (c : ascii) (s : string) : bool :=
  match s with
  | EmptyString => false
  | String d s' => Ascii.eqb c d || str_mem c s'
  end.

(** [s.split(c)[0]]: the part of [s] before the first [c] *)
Fixpoint str_before (c : ascii) (s : string) : string :=
  match s with
  | EmptyString => EmptyString
  | String d s' => if Ascii.eqb c d then EmptyString else String d (str_before c s')
  end.

Definition str_rev (s : string) : string :=
  string_of_list_ascii (rev (list_ascii_of_string s)).

(** The characters [float] strips: the ASCII whitespace, and the two other
    whitespace characters below 256, which it first turns into spaces. *)
Definition is_space (c : ascii) : bool :=
  let n := nat_of_ascii c in
  (n =? 32)%nat || ((9 <=? n)%nat && (n <=? 13)%nat) ||
  (n =? 133)%nat || (n =? 160)%nat.

Fixpoint lstrip (s : string) : string :=
  match s with
  | String c s' => if is_space c then lstrip s' else s
  | EmptyString => EmptyString
  end.

(** [s] without the whitespace [float] ignores at either end *)
Definition strip (s : string) : string := str_rev (lstrip (str_rev (lstrip s))).

Definition lower_char (c : ascii) : ascii :=
  let n := nat_of_ascii c in
  if (65 <=? n)%nat && (n <=? 90)%nat then ascii_of_nat (n + 32) else c.

Fixpoint lower (s : string) : string :=
  match s with
  | EmptyString => EmptyString
  | String c s' => String (lower_char c) (lower s')
  end.

(** *** [float(s)] for a string

    The grammar of the built-in: surrounding whitespace, a sign, then
    [inf], [infinity] or [nan] in any case, or a decimal number with an
    optional fraction and exponent; single underscores may separate digits. *)

Definition is_digit (c : ascii) : bool :=
  let n := nat_of_ascii c in (48 <=? n)%nat && (n <=? 57)%nat.

Definition digit_val (c : ascii) : Z := Z.of_nat (nat_of_ascii c - 48).

(** Reads [digit (["_"] digit)*] after [cnt] digits with value [acc]; returns
    the value, the number of digits and the unread rest. *)
Fixpoint digitpart (s : string) (acc : Z) (cnt : nat) : Z * nat * string :=
  match s with
  | String c s' =>
      if is_digit c then digitpart s' (10 * acc + digit_val c)%Z (S cnt)
      else if Ascii.eqb c "_" && (0 <? cnt)%nat then
        match s' with
        | String d _ => if is_digit d then digitpart s' acc cnt else (acc, cnt, s)
        | EmptyString => (acc, cnt, s)
        end
      else (acc, cnt, s)
  | EmptyString => (acc, cnt, s)
  end.

Definition read_sign (s : string) : bool * string :=
  match s with
  | String "-" s' => (true, s')
  | String "+" s' => (false, s')
  | _ => (false, s)
  end.

(** The exponent part, [None] when it is malformed. *)
Definition read_exponent (s : string) : option Z :=
  match s with
  | EmptyString => Some 0%Z
  | String c s' =>
      if Ascii.eqb (lower_char c) "e" then
        let (neg, s1) := read_sign s' in
        match digitpart s1 0%Z 0 with
        | (v, S _, EmptyString) => Some (if neg then (- v)%Z else v)
        | _ => None
        end
      else None
  end.

Definition float_of_string (s : string) : result pyfloat :=
  let (neg, body) := read_sign (strip s) in
  let name := lower body in
  if String.eqb name "inf" || String.eqb name "infinity" then
    Ok (S754_infinity neg)
  else if String.eqb name "nan" then Ok S754_nan
  else
    let '(ip, ni, s1) := digitpart body 0%Z 0 in
    let '(fp, nf, s2) :=
      match s1 with
      | String "." s1' => digitpart s1' 0%Z 0
      | _ => (0%Z, 0%nat, s1)
      end in
    match (ni + nf)%nat, read_exponent s2 with
    | S _, Some ex =>
        let m := (ip * 10 ^ Z.of_nat nf + fp)%Z in
        Ok (f_of_decimal neg m (ex - Z.of_nat nf))
    | _, _ => Raise ValueError
    end.

(** ** Python values *)

#[warnings="-register-all"] Inductive json : Type :=
| JNull
| JBool (b : bool)
| JInt (z : Z)
| JFloat (f : pyfloat)
| JStr (s : string)
| JList (l : list json)
| JObj (items : list (string * json)).

(** Truth value of [v], as tested by [if v] and [not v]. *)
Definition truthy (v : json) : bool :=
  match v with
  | JNull => false
  | JBool b => b
  | JInt z => negb (z =? 0)%Z
  | JFloat f => negb (f_eq f (f_of_Z 0))
  | JStr s => negb (String.eqb s "")
  | JList l => match l with [] => false | _ => true end
  | JObj items => match items with [] => false | _ => true end
  end.

(** [isinstance(v, list)] *)
Definition is_list (v : json) : bool :=
  match v with
  | JList _ => true
  | _ => false
  end.

Definition is_dict (v : json) : Prop :=
  match v with
  | JObj _ => True
  | _ => False
  end.

Fixpoint assoc (key : string) (items : list (string * json)) : option json :=
  match items with
  | [] => None
  | (k, x) :: items' => if String.eqb key k then Some x else assoc key items'
  end.

(** [v.get(key, default)]; only a dict has the method. *)
Definition py_get (v : json) (key : string) (default : json) : result json :=
  match v with
  | JObj items =>
      Ok (match assoc key items with Some x => x | None => default end)
  | _ => Raise AttributeError
  end.

(** [v[key]] for a string key *)
Definition py_getitem (v : json) (key : string) : result json :=
  match v with
  | JObj items =>
      match assoc key items with Some x => Ok x | None => Raise KeyError end
  | _ => Raise TypeError
  end.

(** The elements [for x in v] visits: the elements of a list, the keys of a
    dict, the characters of a string. *)
Definition py_iter (v : json) : result (list json) :=
  match v with
  | JList l => Ok l
  | JObj items => Ok (map (fun kv => JStr (fst kv)) items)
  | JStr s => Ok (map (fun c => JStr (String c "")) (list_ascii_of_string s))
  | _ => Raise TypeError
  end.

(** [v[0]] *)
Definition py_item0 (v : json) : result json :=
  match v with
  | JList (x :: _) => Ok x
  | JList [] => Raise IndexError
  | JStr (String c _) => Ok (JStr (String c ""))
  | JStr EmptyString => Raise IndexError
  | JObj _ => Raise KeyError
  | _ => Raise TypeError
  end.

(** [v[:n]]; a dict rejects a slice as key ([KeyError] instead from
    Python 3.12 on). *)
Definition py_slice_to (n : nat) (v : json) : result json :=
  match v with
  | JList l => Ok (JList (firstn n l))
  | JStr s => Ok (JStr (str_take n s))
  | _ => Raise TypeError
  end.

(** [l[-n:]] for a list and [n > 0] *)
Definition py_last {A : Type} (n : nat) (l : list A) : list A :=
  skipn (List.length l - n) l.

(** [v + s] for a string [s] *)
Definition py_add_str (v : json) (s : string) : result json :=
  match v with
  | JStr t => Ok (JStr (t ++ s))
  | _ => Raise TypeError
  end.

(** [float(v)] *)
Definition py_float (v : json) : result pyfloat :=
  match v with
  | JInt z => float_of_int z
  | JFloat f => Ok f
  | JBool b => Ok (f_of_Z (if b then 1 else 0))
  | JStr s => float_of_string s
  | _ => Raise TypeError
  end.

(** [min(values)] and [max(values)] of a list with first element [x]: the
    scan keeps the current candidate unless the next item compares strictly
    below (above) it. *)
Definition py_min (x : pyfloat) (xs : list pyfloat) : pyfloat :=
  fold_left (fun m v => if f_lt v m then v else m) xs x.

Definition py_max (x : pyfloat) (xs : list pyfloat) : pyfloat :=
  fold_left (fun m v => if f_gt v m then v else m) xs x.

(** [len(v)] *)
Definition py_len (v : json) : result nat :=
  match v with
  | JList l => Ok (List.length l)
  | JStr s => Ok (String.length s)
  | JObj items => Ok (List.length items)
  | _ => Raise TypeError
  end.

(** A value seen as a number: an [int] (a [bool] is one) or a [float]. *)
Inductive number : Type :=
| NInt (z : Z)
| NFloat (f : pyfloat).

Definition as_number (v : json) : option number :=
  match v with
  | JInt z => Some (NInt z)
  | JBool b => Some (NInt (if b then 1 else 0))
  | JFloat f => Some (NFloat f)
  | _ => None
  end.

(** [a + b] for a number [a], as [sum] adds the next item to its total:
    anything but a number on the right raises, and so does an [int] too
    large for the float it is added to. *)
Definition num_add (a b : json) : result json :=
  match as_number a, as_number b with
  | Some (NInt x), Some (NInt y) => Ok (JInt (x + y))
  | Some (NInt x), Some (NFloat g) =>
      f <- float_of_int x ;; Ok (JFloat (f_add f g))
  | Some (NFloat f), Some (NInt y) =>
      g <- float_of_int y ;; Ok (JFloat (f_add f g))
  | Some (NFloat f), Some (NFloat g) => Ok (JFloat (f_add f g))
  | _, _ => Raise TypeError
  end.

(** The number rendered by [f"{v:.1f}"] (or [.2f]); the format code is
    unknown to a string and unsupported by the other values. *)
Definition py_format_f (v : json) : result pyfloat :=
  match v with
  | JInt z => float_of_int z
  | JBool b => Ok (f_of_Z (if b then 1 else 0))
  | JFloat f => Ok f
  | JStr _ => Raise ValueError
  | _ => Raise TypeError
  end.

(** ** data_fetcher.py *)

Module DataFetcher.

(** The object state.  [session] stands for the HTTP capability: the outcome
    of [session.get(url, params, timeout=12)], [raise_for_status()] and
    [json()] taken together, either the parsed body or the exception one of
    the three raised. *)
Record t : Type := mk {
  nasa_api_key : string;
  nasa_base : string;
  noaa_base : string;
  session : string -> option (list (string * string)) -> result json
}.

Definition init (key : string)
  (http : string -> option (list (string * string)) -> result json) : result t :=
  if String.eqb key "" then Raise ValueError
  else Ok (mk key "https://api.nasa.gov/DONKI/" "https://services.swpc.noaa.gov/" http).

Section Methods.

Variable self : t.

(** The warning printed on failure is not part of the returned value. *)
Definition _make_request (url : string) (params : option (list (string * string)))
  : result json :=
  match session self url params with
  | Ok data => Ok data
  | Raise e => if is_RequestException e then Ok JNull else Raise e
  end.

Definition date_params (start_date end_date : string) : option (list (string * string)) :=
  Some [("startDate", start_date); ("endDate", end_date); ("api_key", nasa_api_key self)].

Definition cme_record (e : json) : result json :=
  startTime <- py_get e "startTime" JNull ;;
  sourceLocation <- py_get e "sourceLocation" JNull ;;
  catalog <- py_get e "catalog" JNull ;;
  link <- py_get e "link" (JStr "") ;;
  Ok (JObj [("startTime", startTime); ("sourceLocation", sourceLocation);
            ("catalog", catalog); ("link", link)]).

Definition get_cme_events (start_date end_date : string) : result json :=
  data <- _make_request (nasa_base self ++ "CME") (date_params start_date end_date) ;;
  if negb (truthy data) then Ok JNull
  else
    elems <- py_iter data ;;
    events <- mapM cme_record elems ;;
    Ok (JList (firstn 5 events)).

Definition flare_record (f : json) : result json :=
  beginTime <- py_get f "beginTime" JNull ;;
  peakTime <- py_get f "peakTime" JNull ;;
  classType <- py_get f "classType" JNull ;;
  sourceLocation <- py_get f "sourceLocation" JNull ;;
  link <- py_get f "link" (JStr "") ;;
  Ok (JObj [("beginTime", beginTime); ("peakTime", peakTime);
            ("classType", classType); ("sourceLocation", sourceLocation);
            ("link", link)]).

Definition get_solar_flares (start_date end_date : string) : result json :=
  data <- _make_request (nasa_base self ++ "FLR") (date_params start_date end_date) ;;
  if negb (truthy data) then Ok JNull
  else
    elems <- py_iter data ;;
    flares <- mapM flare_record elems ;;
    Ok (JList (firstn 5 flares)).

(** The [kp_index] local of the storm loop. *)
Definition storm_kp_index (s : json) : result json :=
  all <- py_get s "allKpIndex" JNull ;;
  if truthy all then
    all' <- py_getitem s "allKpIndex" ;;
    first <- py_item0 all' ;;
    py_get first "kpIndex" JNull
  else Ok JNull.

Definition storm_record (s : json) : result json :=
  kp_index <- storm_kp_index s ;;
  startTime <- py_get s "startTime" JNull ;;
  link <- py_get s "link" (JStr "") ;;
  Ok (JObj [("startTime", startTime); ("kpIndex", kp_index); ("link", link)]).

Definition get_geomagnetic_storms (start_date end_date : string) : result json :=
  data <- _make_request (nasa_base self ++ "GST") (date_params start_date end_date) ;;
  if negb (truthy data) then Ok JNull
  else
    elems <- py_iter data ;;
    storms <- mapM storm_record elems ;;
    Ok (JList (firstn 5 storms)).

Definition alert_body (a : json) : result json :=
  body <- py_get a "messageBody" (JStr "") ;;
  head <- py_slice_to 200 body ;;
  py_add_str head "...".

Definition alert_record (a : json) : result json :=
  messageType <- py_get a "messageType" JNull ;;
  messageIssueTime <- py_get a "messageIssueTime" JNull ;;
  messageBody <- alert_body a ;;
  Ok (JObj [("messageType", messageType); ("messageIssueTime", messageIssueTime);
            ("messageBody", messageBody)]).

Definition get_space_weather_alerts : result json :=
  data <- _make_request (nasa_base self ++ "notifications")
            (Some [("type", "all"); ("api_key", nasa_api_key self)]) ;;
  if negb (truthy data) then Ok JNull
  else
    head <- py_slice_to 5 data ;;
    elems <- py_iter head ;;
    alerts <- mapM alert_record elems ;;
    Ok (JList alerts).

(** The body of the [try] in the wind loop: [Some] record when one is
    appended, [None] when the speed test fails. *)
Definition wind_sample (d : json) : result (option json) :=
  sp <- py_get d "proton_speed" (JInt 0) ;;
  speed <- py_float sp ;;
  de <- py_get d "proton_density" (JInt 0) ;;
  density <- py_float de ;;
  if f_gt speed (f_of_Z 0) then
    time_tag <- py_get d "time_tag" JNull ;;
    Ok (Some (JObj [("time_tag", time_tag); ("speed", JFloat speed);
                    ("density", JFloat density)]))
  else Ok None.

(** The wind loop; [except Exception: continue] skips the element. *)
Fixpoint wind_loop (data : list json) : result (list json) :=
  match data with
  | [] => Ok []
  | d :: data' =>
      match wind_sample d with
      | Ok (Some r) => rs <- wind_loop data' ;; Ok (r :: rs)
      | Ok None => wind_loop data'
      | Raise e => if is_Exception e then wind_loop data' else Raise e
      end
  end.

Definition get_solar_wind_data : result json :=
  data <- _make_request (noaa_base self ++ "json/rtsw/rtsw_wind_1m.json") None ;;
  match data with
  | JList l =>
      res <- wind_loop l ;;
      Ok (if truthy (JList res) then JList (py_last 60 res) else JNull)
  | _ => Ok JNull
  end.

Definition get_sunspot_data : result json :=
  _make_request (noaa_base self ++ "json/sunspot_report.json") None.

Definition get_geomagnetic_index : result json :=
  data <- _make_request (noaa_base self ++ "json/planetary_k_index_1m.json") None ;;
  match data with
  | JList l => Ok (if truthy data then JList (py_last 20 l) else JNull)
  | _ => Ok JNull
  end.

Definition get_solar_flux : result json :=
  data <- _make_request (noaa_base self ++ "json/f10_7cm.json") None ;;
  match data with
  | JList l => Ok (if truthy data then JList (py_last 5 l) else JNull)
  | _ => Ok JNull
  end.

End Methods.

End DataFetcher.

(** ** plotter.py *)

Module Plotter.

(** The eight block characters U+2581 .. U+2588, low to high. *)
Definition _SPARK_CHARS : list N :=
  [0x2581; 0x2582; 0x2583; 0x2584; 0x2585; 0x2586; 0x2587; 0x2588]%N.

(** [len(_SPARK_CHARS)], the default of the [length] argument. *)
Definition levels : Z := Z.of_nat (List.length _SPARK_CHARS).

(** The index computed for one value in the general case. *)
Definition scale (vmin rng : pyfloat) (length : Z) (v : pyfloat) : result Z :=
  q <- f_div (f_sub v vmin) rng ;;
  f_int (f_mul q (f_of_Z (length - 1))).

Definition _normalize (values : list pyfloat) (length : Z) : result (list Z) :=
  match values with
  | [] => Ok []
  | v0 :: vs =>
      let vmin := py_min v0 vs in
      let vmax := py_max v0 vs in
      if f_eq vmax vmin then
        let mid := (length / 2)%Z in
        Ok (repeat mid (List.length values))
      else
        let rng := f_sub vmax vmin in
        mapM (scale vmin rng length) values
  end.

(** [_SPARK_CHARS[i]]: a negative index counts from the end. *)
Definition spark_char (i : Z) : result N :=
  let n := levels in
  let j := (if i <? 0 then i + n else i)%Z in
  if ((0 <=? j) && (j <? n))%Z then
    match nth_error _SPARK_CHARS (Z.to_nat j) with
    | Some c => Ok c
    | None => Raise IndexError
    end
  else Raise IndexError.

Definition sparkline (values : list pyfloat) : result (list N) :=
  idxs <- _normalize values levels ;;
  mapM spark_char idxs.

(** What [create_wind_speed_plot] returns: one of its two fixed messages, or
    the text block, kept here as the values the block interpolates (the
    rendering of a float with one decimal is not modelled). *)
Inductive plot : Type :=
| NoWindData
| NoValidData
| Chart (sline : list N) (vmin vmax median : pyfloat) (left_time right_time : json).

Section WindPlot.

(** [datetime.strptime(text, fmt).strftime("%H:%M")], [None] when [strptime]
    raises. *)
Variable strptime_hm : string -> string -> option string.

(** The label appended to [times]: the parsed time of day, or
    [time_tag[:8]] from the handler, which raises for a value that cannot
    be sliced. *)
Definition time_label (time_tag : json) : result json :=
  match time_tag with
  | JStr s =>
      let fmt := if str_mem "T" s then "%Y-%m-%dT%H:%M:%S" else "%Y-%m-%d %H:%M:%S" in
      match strptime_hm fmt (str_before "." s) with
      | Some hm => Ok (JStr hm)
      | None => py_slice_to 8 time_tag
      end
  | _ => py_slice_to 8 time_tag
  end.

Definition is_None (v : json) : bool :=
  match v with
  | JNull => true
  | _ => false
  end.

(** The loop over [recent], with the two lists it appends to. *)
Fixpoint collect (recent : list json) (times : list json) (speeds : list pyfloat)
  : result (list json * list pyfloat) :=
  match recent with
  | [] => Ok (times, speeds)
  | entry :: recent' =>
      time_tag <- py_get entry "time_tag" JNull ;;
      speed <- py_get entry "speed" JNull ;;
      if negb (truthy time_tag) || is_None speed then collect recent' times speeds
      else
        label <- time_label time_tag ;;
        let times' := (times ++ [label])%list in
        match py_float speed with
        | Ok x => collect recent' times' (speeds ++ [x])%list
        | Raise ValueError | Raise TypeError => collect recent' times' speeds
        | Raise e => Raise e
        end
  end.

Definition create_wind_speed_plot (wind_data : json) : result plot :=
  if negb (truthy wind_data) then Ok NoWindData
  else
    match wind_data with
    | JList l =>
        let recent := py_last 30 l in
        collected <- collect recent [] [] ;;
        let (times, speeds) := collected in
        match speeds with
        | [] => Ok NoValidData
        | s0 :: ss =>
            sline <- sparkline speeds ;;
            let vmin := py_min s0 ss in
            let vmax := py_max s0 ss in
            median <- match nth_error speeds (List.length speeds / 2) with
                      | Some m => Ok m
                      | None => Raise IndexError
                      end ;;
            let left_time := hd (JStr "") times in
            let right_time := last times (JStr "") in
            Ok (Chart sline vmin vmax median left_time right_time)
        end
    | JStr _ => Raise AttributeError
    | _ => Raise TypeError
    end.

End WindPlot.

End Plotter.

(** ** dashboard.py *)

Module Dashboard.

(** The content of the K-index panel: the placeholder text, or the values
    the panel text interpolates (index, status word and the two run lengths
    of the bar). *)
Inductive kp_panel : Type :=
| NoKIndexData
| KIndex (kp : pyfloat) (level : string) (filled empty : nat).

(** [data[-1]] *)
Definition py_item_last (v : json) : result json :=
  match v with
  | JList l => match rev l with x :: _ => Ok x | [] => Raise IndexError end
  | JStr s => match list_ascii_of_string (str_rev s) with
              | c :: _ => Ok (JStr (String c ""))
              | [] => Raise IndexError
              end
  | JObj _ => Raise KeyError
  | _ => Raise TypeError
  end.

Section KIndexPanel.

(** The length of the longest string the interpreter can still allocate. *)
Variable max_str_len : Z.

(** The length of [c * n] for a one-character string [c]: a count that is
    no index, below -2^63 or above [sys.maxsize] (2^63 - 1), raises
    [OverflowError]; the string is empty for [n <= 0]; and a string that
    cannot be allocated raises [MemoryError]. *)
Definition py_str_repeat (n : Z) : result nat :=
  if ((n <? - 2 ^ 63) || (2 ^ 63 - 1 <? n))%Z then Raise OverflowError
  else if (n <=? 0)%Z then Ok 0%nat
  else if (max_str_len <? n)%Z then Raise (OtherException "MemoryError")
  else Ok (Z.to_nat n).

Definition geomagnetic_panel (data : json) : result kp_panel :=
  if negb (truthy data) then Ok NoKIndexData
  else
    recent <- py_item_last data ;;
    k <- py_get recent "k_index" (JInt 0) ;;
    kp <- py_float k ;;
    let level :=
      if f_lt kp (f_of_Z 4) then "Quiet"
      else if f_lt kp (f_of_Z 6) then "Active" else "Storm" in
    n <- f_int kp ;;
    filled <- py_str_repeat n ;;
    n' <- f_int kp ;;
    empty <- py_str_repeat (9 - n') ;;
    Ok (KIndex kp level filled empty).

End KIndexPanel.

(** [data[-2]] *)
Definition py_item_last2 (v : json) : result json :=
  match v with
  | JList l => match rev l with _ :: x :: _ => Ok x | _ => Raise IndexError end
  | JStr s => match list_ascii_of_string (str_rev s) with
              | _ :: c :: _ => Ok (JStr (String c ""))
              | _ => Raise IndexError
              end
  | JObj _ => Raise KeyError
  | _ => Raise TypeError
  end.

(** The three arrows of the flux panel. *)
Inductive trend : Type :=
| Rising
| Falling
| Steady.

(** The content of the flux panel: the placeholder, or the two values and
    the arrow the text interpolates. *)
Inductive flux_panel : Type :=
| NoFluxData
| Flux (today yesterday : pyfloat) (arrow : trend).

Definition solar_flux_panel (data : json) : result flux_panel :=
  if negb (truthy data) then Ok NoFluxData
  else
    latest <- py_item_last data ;;
    t <- py_get latest "flux" (JInt 0) ;;
    today <- py_float t ;;
    n <- py_len data ;;
    yesterday <- (if (1 <? n)%nat then
                    previous <- py_item_last2 data ;;
                    y <- py_get previous "flux" (JInt 0) ;;
                    py_float y
                  else Ok today) ;;
    let arrow :=
      if f_gt today yesterday then Rising
      else if f_lt today yesterday then Falling else Steady in
    Ok (Flux today yesterday arrow).

(** The content of the sunspot panel: the placeholder, or the number of
    regions and the total the text interpolates. *)
Inductive sunspot_panel_content : Type :=
| NoSunspotData
| Sunspots (regions : nat) (total_spots : json).

(** [sum(r.get("spot_count", 0) for r in items)] continued from [total]:
    each item is looked up and added before the next one is visited. *)
Fixpoint sum_spot_counts (items : list json) (total : json) : result json :=
  match items with
  | [] => Ok total
  | r :: items' =>
      x <- py_get r "spot_count" (JInt 0) ;;
      total' <- num_add total x ;;
      sum_spot_counts items' total'
  end.

Definition sunspot_panel (data : json) : result sunspot_panel_content :=
  if negb (truthy data) then Ok NoSunspotData
  else
    items <- py_iter data ;;
    total_spots <- sum_spot_counts items (JInt 0) ;;
    regions <- py_len data ;;
    Ok (Sunspots regions total_spots).


(** A table panel, as the rows handed to [table.add_row].  [Cell v]: the
    value itself.  [StrOf v]: [str(v)].  [LinkTo v]: the markup built around
    [v]. *)
Inductive cell : Type :=
| Cell (v : json)
| StrOf (v : json)
| LinkTo (v : json).

(** What rich's [Table.add_row] takes as a cell: a string, or [None] for an
    empty cell. *)
Definition renderable (c : cell) : bool :=
  match c with
  | Cell (JStr _) | Cell JNull => true
  | Cell _ => false
  | StrOf _ | LinkTo _ => true
  end.

(** [table.add_row] on the cells of one row: a cell of another type is
    refused with rich's [NotRenderableError]. *)
Definition add_row (cells : list cell) : result (list cell) :=
  if forallb renderable cells then Ok cells
  else Raise (OtherException "NotRenderableError").

Definition cme_row (e : json) : result (list cell) :=
  startTime <- py_get e "startTime" (JStr "N/A") ;;
  sourceLocation <- py_get e "sourceLocation" (JStr "N/A") ;;
  link <- py_get e "link" (JStr "#") ;;
  add_row [Cell startTime; Cell sourceLocation; LinkTo link].

Definition cme_panel (data : json) : result (list (list cell)) :=
  if negb (truthy data) then
    Ok [[Cell (JStr "No recent CME data."); Cell (JStr ""); Cell (JStr "")]]
  else
    head <- py_slice_to 5 data ;;
    elems <- py_iter head ;;
    mapM cme_row elems.

Definition flare_row (f : json) : result (list cell) :=
  beginTime <- py_get f "beginTime" (JStr "N/A") ;;
  classType <- py_get f "classType" (JStr "N/A") ;;
  sourceLocation <- py_get f "sourceLocation" (JStr "N/A") ;;
  link <- py_get f "link" (JStr "#") ;;
  add_row [Cell beginTime; Cell classType; Cell sourceLocation; LinkTo link].

Definition solar_flare_panel (data : json) : result (list (list cell)) :=
  if negb (truthy data) then
    Ok [[Cell (JStr "No recent flare data."); Cell (JStr ""); Cell (JStr "");
         Cell (JStr "")]]
  else
    elems <- py_iter data ;;
    mapM flare_row elems.

Definition storm_row (s : json) : result (list cell) :=
  startTime <- py_get s "startTime" (JStr "N/A") ;;
  kpIndex <- py_get s "kpIndex" (JStr "N/A") ;;
  link <- py_get s "link" (JStr "#") ;;
  add_row [Cell startTime; StrOf kpIndex; LinkTo link].

Definition geomag_storm_panel (data : json) : result (list (list cell)) :=
  if negb (truthy data) then
    Ok [[Cell (JStr "No recent storms found."); Cell (JStr ""); Cell (JStr "")]]
  else
    elems <- py_iter data ;;
    mapM storm_row elems.

(** One line of the alerts panel: the type and the date it interpolates. *)
Definition alert_line (alert : json) : result (json * json) :=
  msg_type <- py_get alert "messageType" (JStr "Alert") ;;
  issued <- py_get alert "messageIssueTime" (JStr "N/A") ;;
  date <- py_slice_to 10 issued ;;
  Ok (msg_type, date).

(** The content of the alerts panel: the placeholder, or its lines. *)
Inductive alerts_panel_content : Type :=
| NoAlerts
| AlertLines (lines : list (json * json)).

Definition alerts_panel (data : json) : result alerts_panel_content :=
  if negb (truthy data) then Ok NoAlerts
  else
    head <- py_slice_to 5 data ;;
    elems <- py_iter head ;;
    lines <- mapM alert_line elems ;;
    Ok (AlertLines lines).

Section WindPanel.

Variable strptime_hm : string -> string -> option string.


End WindPanel.


(** *** The refresh loop of [main]

    Every call the loop makes is a step whose outcome, a normal return or a
    raised exception, is given by the environment: [w n c] is the outcome of
    call [c] in cycle [n]. *)

(** The eight fetcher calls, by the local variable that takes the result. *)
Inductive feed : Type :=
| fetch_wind | fetch_geomag | fetch_flux | fetch_sunspots
| fetch_cmes | fetch_flares | fetch_storms | fetch_alerts.

(** The regions of the layout, by their names in [create_layout]. *)
Inductive region : Type :=
| header | footer
| solar_wind | geomagnetic | solar_flux | sunspots
| cme | solar_flares | geomag_storms | alerts.

Inductive message : Type :=
| DashboardClosed
| ErrorUpdating (e : pyexc).

(** [Fetch f]: a fetcher method.  [Update r]: [layout[r].update(panel(data))],
    the panel function and the replacement of the region's content.
    [Sleep s]: [time.sleep(s)].  [Print m]: [console.print]. *)
Inductive call : Type :=
| Fetch (f : feed)
| Update (r : region)
| Sleep (secs : Z)
| Print (m : message).

Definition world : Type := nat -> call -> option pyexc.

(** The statements of the [try] block, in order, after the two date strings
    that open it. *)
Definition cycle_body : list call :=
  [Fetch fetch_wind; Fetch fetch_geomag; Fetch fetch_flux; Fetch fetch_sunspots;
   Fetch fetch_cmes; Fetch fetch_flares; Fetch fetch_storms; Fetch fetch_alerts;
   Update solar_wind; Update geomagnetic; Update solar_flux; Update sunspots;
   Update cme; Update solar_flares; Update geomag_storms; Update alerts;
   Update footer;
   Sleep 180].

Definition on_interrupt : list call := [Print DashboardClosed].

Definition on_exception (e : pyexc) : list call := [Print (ErrorUpdating e); Sleep 30].

(** The layout object shared with [Live]: for each region, the cycle whose
    content it holds (0 for the content set before the loop). *)
Definition layout : Type := region -> option nat.

Definition region_eqb (a b : region) : bool :=
  match a, b with
  | header, header | footer, footer | solar_wind, solar_wind
  | geomagnetic, geomagnetic | solar_flux, solar_flux | sunspots, sunspots
  | cme, cme | solar_flares, solar_flares | geomag_storms, geomag_storms
  | alerts, alerts => true
  | _, _ => false
  end.

Definition update (r : region) (n : nat) (l : layout) : layout :=
  fun r' => if region_eqb r r' then Some n else l r'.

Record event : Type := Called {
  ev_cycle : nat;
  ev_call : call;
  ev_raised : option pyexc
}.

(** [shown]: the layout.  [frames]: the layout as it stands during each
    pause that ran to its end.  [Live] repaints the layout from a thread of
    its own, every 2 seconds ([refresh_per_second=0.5]) and whatever the
    loop is doing, so a pause of 30 or 180 seconds puts that layout on
    screen; the repaints that fall while the body is fetching or updating
    are not recorded, and [frames] is not the list of all that is shown.
    [trace]: the calls made so far. *)
Record state : Type := State {
  shown : layout;
  frames : list layout;
  trace : list event
}.

Definition effect (n : nat) (c : call) (st : state) : state :=
  match c with
  | Update r => State (update r n (shown st)) (frames st) (trace st)
  | Sleep _ => State (shown st) (frames st ++ [shown st]) (trace st)
  | _ => st
  end.

Definition log (n : nat) (c : call) (r : option pyexc) (st : state) : state :=
  State (shown st) (frames st) (trace st ++ [Called n c r]).

(** The pauses of a trace that ran to their end, by their length in
    seconds. *)
Definition pauses (t : list event) : list Z :=
  flat_map (fun ev => match ev_call ev, ev_raised ev with
                      | Sleep secs, None => [secs]
                      | _, _ => []
                      end) t.

(** A call that returns normally: logged, then its effect. *)
Definition step (n : nat) (st : state) (c : call) : state :=
  effect n c (log n c None st).

(** Runs the calls in order up to the first that raises. *)
Fixpoint run_calls (w : call -> option pyexc) (n : nat) (cs : list call) (st : state)
  : state * option pyexc :=
  match cs with
  | [] => (st, None)
  | c :: cs' =>
      match w c with
      | Some e => (log n c (Some e) st, Some e)
      | None => run_calls w n cs' (effect n c (log n c None st))
      end
  end.

Inductive control : Type :=
| Continue
| Break
| Propagate (e : pyexc).

(** A handler that raises lets the exception leave the [try] statement. *)
Definition handle (w : call -> option pyexc) (n : nat) (handler : list call)
  (after : control) (st : state) : state * control :=
  match run_calls w n handler st with
  | (st', None) => (st', after)
  | (st', Some e') => (st', Propagate e')
  end.

(** One iteration of [while True]. *)
Definition cycle (w : world) (n : nat) (st : state) : state * control :=
  match run_calls (w n) n cycle_body st with
  | (st1, None) => (st1, Continue)
  | (st1, Some e) =>
      match e with
      | KeyboardInterrupt => handle (w n) n on_interrupt Break st1
      | _ =>
          if is_Exception e then handle (w n) n (on_exception e) Continue st1
          else (st1, Propagate e)
      end
  end.

(** How [main] stands after some cycles: still looping, returned after
    [break], or left by an exception. *)
Inductive outcome : Type :=
| Looping
| Returned
| Uncaught (e : pyexc).

Fixpoint loop (fuel : nat) (w : world) (n : nat) (st : state) : state * outcome :=
  match fuel with
  | O => (st, Looping)
  | S fuel' =>
      match cycle w n st with
      | (st', Continue) => loop fuel' w (S n) st'
      | (st', Break) => (st', Returned)
      | (st', Propagate e) => (st', Uncaught e)
      end
  end.

(** [header] and [footer] are filled before the loop starts. *)
Definition initial : state :=
  State (update footer 0 (update header 0 (fun _ => None))) [] [].

(** [main], observed for at most [fuel] cycles; cycles count from 1. *)
Definition main (w : world) (fuel : nat) : state * outcome :=
  loop fuel w 1 initial.

End Dashboard.

(** * Reference definitions

    The normalised records in the words of the specification, to be compared
    with what the fetcher computes, and the fixtures used in examples. *)

Module Reference.

(** The value of [key] in the object [e], [default] when [e] has no such
    key. *)
Definition field (key : string) (default : json) (e : json) : json :=
  match e with
  | JObj items => match assoc key items with Some x => x | None => default end
  | _ => default
  end.

Definition missing (key : string) (e : json) : Prop :=
  match e with
  | JObj items => assoc key items = None
  | _ => True
  end.

Definition cme_event (e : json) : json :=
  JObj [("startTime", field "startTime" JNull e);
        ("sourceLocation", field "sourceLocation" JNull e);
        ("catalog", field "catalog" JNull e);
        ("link", field "link" (JStr "") e)].

Definition flare_event (f : json) : json :=
  JObj [("beginTime", field "beginTime" JNull f);
        ("peakTime", field "peakTime" JNull f);
        ("classType", field "classType" JNull f);
        ("sourceLocation", field "sourceLocation" JNull f);
        ("link", field "link" (JStr "") f)].

(** The [kpIndex] of the first element of the nested list when the list is
    present and non-empty, null otherwise. *)
Definition storm_kp (s : json) : json :=
  match field "allKpIndex" JNull s with
  | JList (first :: _) => field "kpIndex" JNull first
  | _ => JNull
  end.

Definition storm_event (s : json) : json :=
  JObj [("startTime", field "startTime" JNull s);
        ("kpIndex", storm_kp s);
        ("link", field "link" (JStr "") s)].

(** A storm element as the feed documents it: an object whose nested list,
    when present and non-empty, starts with an object. *)
Definition storm_ok (s : json) : Prop :=
  is_dict s /\
  match field "allKpIndex" JNull s with
  | JList (first :: _) => is_dict first
  | v => truthy v = false
  end.

(** The text of the alert, empty when the key is missing. *)
Definition body_text (a : json) : string :=
  match field "messageBody" (JStr "") a with
  | JStr b => b
  | _ => ""
  end.

(** An alert element as the feed documents it: an object whose body, when
    present, is text. *)
Definition alert_ok (a : json) : Prop :=
  is_dict a /\ exists b, field "messageBody" (JStr "") a = JStr b.

Definition alert_event (a : json) : json :=
  JObj [("messageType", field "messageType" JNull a);
        ("messageIssueTime", field "messageIssueTime" JNull a);
        ("messageBody", JStr (str_take 200 (body_text a) ++ "..."))].

(** The floating-point value of [key] in [d] (0 when the key is missing),
    [None] when [d] is no object or the value does not coerce. *)
Definition coerced (key : string) (d : json) : option pyfloat :=
  match d with
  | JObj _ =>
      match py_float (field key (JInt 0) d) with
      | Ok x => Some x
      | Raise _ => None
      end
  | _ => None
  end.

(** The sample kept for [d]: both values coerce and the speed is above 0. *)
Definition wind_sample (d : json) : option json :=
  match coerced "proton_speed" d, coerced "proton_density" d with
  | Some speed, Some density =>
      if f_gt speed (f_of_Z 0) then
        Some (JObj [("time_tag", field "time_tag" JNull d);
                    ("speed", JFloat speed); ("density", JFloat density)])
      else None
  | _, _ => None
  end.

(** The samples of the qualifying elements, in the order of the input. *)
Fixpoint qualifying (data : list json) : list json :=
  match data with
  | [] => []
  | d :: data' =>
      match wind_sample d with
      | Some r => r :: qualifying data'
      | None => qualifying data'
      end
  end.

(** A fetcher whose HTTP capability answers every request with [resp]. *)
Definition serving (resp : result json) : DataFetcher.t :=
  DataFetcher.mk "DEMO_KEY" "https://api.nasa.gov/DONKI/"
    "https://services.swpc.noaa.gov/" (fun _ _ => resp).

(** The glyph at palette index [i]. *)
Definition glyph (i : Z) : N := nth (Z.to_nat i) Plotter._SPARK_CHARS 0%N.

(** The float 2^1023, about 8.99e307: half of the first power of two that
    is too large for a float. *)
Definition two_1023 : pyfloat := S754_finite false (2 ^ 52) 971.

(** Three wind samples with speeds 5, 1 and 9. *)
Definition median_example : list json :=
  [JObj [("time_tag", JStr "2024-01-01T00:00:00"); ("speed", JFloat (f_of_Z 5))];
   JObj [("time_tag", JStr "2024-01-01T00:01:00"); ("speed", JFloat (f_of_Z 1))];
   JObj [("time_tag", JStr "2024-01-01T00:02:00"); ("speed", JFloat (f_of_Z 9))]].

(** Twenty-five K-index samples. *)
Definition k_samples : list json := map (fun i => JInt (Z.of_nat i)) (seq 0 25).

(** The wind response of the specification's example. *)
Definition wind_example : list json :=
  [JObj [("proton_speed", JStr "400"); ("proton_density", JStr "5")];
   JObj [("proton_speed", JStr "-1"); ("proton_density", JStr "2")];
   JObj [("proton_speed", JStr "abc"); ("proton_density", JStr "1")]].

(** A wind response of 65 elements, all of which qualify, numbered by
    their time tags, and the sample the normalizer keeps for the element
    numbered [i]. *)
Definition batch_element (i : nat) : json :=
  JObj [("time_tag", JInt (Z.of_nat i));
        ("proton_speed", JInt (300 + Z.of_nat i));
        ("proton_density", JStr "5")].

Definition batch_sample (i : nat) : json :=
  JObj [("time_tag", JInt (Z.of_nat i));
        ("speed", JFloat (f_of_Z (300 + Z.of_nat i)));
        ("density", JFloat (f_of_Z 5))].

Definition wind_batch : list json := map batch_element (seq 0 65).

(** An alert with a body of 31 characters and no issue time. *)
Definition alerts_example : list json :=
  [JObj [("messageType", JStr "Report");
         ("messageBody", JStr "CME observed by the coronagraph")]].

(** An alert whose body has 205 characters: 200 times [a], then [bcdef]. *)
Definition long_body : string :=
  string_of_list_ascii (repeat "a"%char 200) ++ "bcdef".

Definition long_alert : list json :=
  [JObj [("messageType", JStr "Alert");
         ("messageIssueTime", JStr "2024-01-01T00:00Z");
         ("messageBody", JStr long_body)]].

(** A clock that reads the time of day at a fixed position of the text. *)
Definition clock (fmt text : string) : option string := Some (substring 11 5 text).

(** A K-index response whose last sample has a null index. *)
Definition null_k_index : json := JList [JObj [("time_tag", JStr "t"); ("k_index", JNull)]].

(** The eight regions that hold feed data. *)
Definition content_regions : list Dashboard.region :=
  [Dashboard.solar_wind; Dashboard.geomagnetic; Dashboard.solar_flux;
   Dashboard.sunspots; Dashboard.cme; Dashboard.solar_flares;
   Dashboard.geomag_storms; Dashboard.alerts].

Definition all_feeds : list Dashboard.feed :=
  [Dashboard.fetch_wind; Dashboard.fetch_geomag; Dashboard.fetch_flux;
   Dashboard.fetch_sunspots; Dashboard.fetch_cmes; Dashboard.fetch_flares;
   Dashboard.fetch_storms; Dashboard.fetch_alerts].

(** A frame whose eight panels come from one and the same cycle. *)
Definition uniform (l : Dashboard.layout) : Prop :=
  exists n, forall r, In r content_regions -> l r = Some n.

(** The K-index panel raises in the first cycle, and the user interrupts
    the recovery pause that follows. *)
Definition interrupted_recovery : Dashboard.world :=
  fun n c =>
    match n, c with
    | 1%nat, Dashboard.Update Dashboard.geomagnetic => Some TypeError
    | 1%nat, Dashboard.Sleep secs => if (secs =? 30)%Z then Some KeyboardInterrupt else None
    | _, _ => None
    end.

(** The first cycle runs to its end; in the second one the K-index panel
    raises. *)
Definition failing_update : Dashboard.world :=
  fun n c =>
    match n, c with
    | 2%nat, Dashboard.Update Dashboard.geomagnetic => Some TypeError
    | _, _ => None
    end.

(** The user interrupts the standard pause of the first cycle. *)
Definition interrupted_pause : Dashboard.world :=
  fun n c =>
    match n, c with
    | 1%nat, Dashboard.Sleep secs => if (secs =? 180)%Z then Some KeyboardInterrupt else None
    | _, _ => None
    end.




(** The default taken for the last event of an empty trace. *)
Definition no_event : Dashboard.event :=
  Dashboard.Called 0 (Dashboard.Sleep 0) None.

(** A time tag that is text, or null as for a missing key. *)
Definition text_or_null (t : json) : Prop :=
  t = JNull \/ exists text, t = JStr text.

(** An element whose values under [keys] are text, or null as for a missing
    key. *)
Definition text_cells (keys : list string) (e : json) : Prop :=
  Forall (fun k => text_or_null (field k JNull e)) keys.


(** The integer spot count of a region, 0 when the key is missing. *)
Definition spot_count (r : json) : Z :=
  match field "spot_count" (JInt 0) r with
  | JInt z => z
  | _ => 0
  end.


Definition total_spots (regions : list json) : Z :=
  fold_right Z.add 0%Z (map spot_count regions).

(** The text of an alert's issue time. *)
Definition issue_text (a : json) : string :=
  match field "messageIssueTime" JNull a with
  | JStr t => t
  | _ => ""
  end.

(** The common shape of the three event normalizers, applied to the
    response [data] with the record function [rec]. *)
Definition first_five (rec : json -> result json) (data : json) : result json :=
  if negb (truthy data) then Ok JNull
  else
    elems <- py_iter data ;;
    rs <- mapM rec elems ;;
    Ok (JList (firstn 5 rs)).

End Reference.

(** ** Proof automation *)

(** Case analysis on the floats of a goal about comparisons, down to the
    comparisons of exponents and mantissas. *)
Ltac float_order :=
  unfold f_gt, f_lt, f_eq, SFltb, SFeqb, SFcompare in *;
  repeat match goal with
         | x : pyfloat |- _ => destruct x as [[]|[]| |[] ? ?]
         end;
  try discriminate; try reflexivity;
  repeat match goal with
         | H : context [Z.compare ?a ?b] |- _ => destruct (Z.compare_spec a b)
         | |- context [Z.compare ?a ?b] => destruct (Z.compare_spec a b)
         | H : context [Pos.compare_cont Eq ?a ?b] |- _ =>
             change (Pos.compare_cont Eq a b) with (Pos.compare a b) in *;
             destruct (Pos.compare_spec a b)
         | |- context [Pos.compare_cont Eq ?a ?b] =>
             change (Pos.compare_cont Eq a b) with (Pos.compare a b) in *;
             destruct (Pos.compare_spec a b)
         end;
  simpl in *; try discriminate; try reflexivity; try lia.

(** * Properties *)

Local Open Scope list_scope.

(** ** General lemmas *)

Lemma mapM_ok_map {A B : Type} (f : A -> result B) (g : A -> B) (l : list A) :
  (forall x, In x l -> f x = Ok (g x)) -> mapM f l = Ok (map g l).
Proof.
  induction l as [|a l IH]; intros H; simpl.
  - reflexivity.
  - rewrite (H a (or_introl eq_refl)). simpl.
    rewrite IH by (intros x Hx; apply H; right; exact Hx).
    reflexivity.
Qed.

Lemma mapM_length {A B : Type} (f : A -> result B) (l : list A) (bs : list B) :
  mapM f l = Ok bs -> List.length bs = List.length l.
Proof.
  revert bs. induction l as [|a l IH]; intros bs H; simpl in H.
  - injection H as <-. reflexivity.
  - destruct (f a) as [b|e]; simpl in H; [|discriminate].
    destruct (mapM f l) as [bs'|e]; simpl in H; [|discriminate].
    injection H as <-. simpl. f_equal. apply IH. reflexivity.
Qed.

Lemma py_last_length {A : Type} (n : nat) (l : list A) :
  List.length (py_last n l) = Nat.min n (List.length l).
Proof. unfold py_last. rewrite length_skipn. lia. Qed.

Lemma py_last_short {A : Type} (n : nat) (l : list A) :
  (List.length l <= n)%nat -> py_last n l = l.
Proof.
  intros H. unfold py_last.
  replace (List.length l - n)%nat with 0%nat by lia. reflexivity.
Qed.

(** [l[-n:]] is the suffix of [l] left after dropping the first
    [len(l) - n] elements: the order of the elements is that of [l]. *)
Lemma py_last_suffix {A : Type} (n : nat) (l : list A) :
  firstn (List.length l - n) l ++ py_last n l = l.
Proof. unfold py_last. apply firstn_skipn. Qed.

Lemma str_take_all (n : nat) (s : string) :
  (String.length s <= n)%nat -> str_take n s = s.
Proof.
  revert n. induction s as [|c s IH]; intros n H.
  - destruct n; reflexivity.
  - destruct n as [|n]; simpl in H; [lia|].
    simpl. f_equal. apply IH. lia.
Qed.

Lemma str_take_length (n : nat) (s : string) :
  String.length (str_take n s) = Nat.min n (String.length s).
Proof.
  revert n. induction s as [|c s IH]; intros n.
  - destruct n; reflexivity.
  - destruct n as [|n]; simpl; [reflexivity|]. rewrite IH. reflexivity.
Qed.
Lemma str_take_app (pre rest : string) :
  str_take (String.length pre) (pre ++ rest) = pre.
Proof.
  induction pre as [|c pre IH]; simpl.
  - destruct rest; reflexivity.
  - f_equal. exact IH.
Qed.

(** ** Floats *)

Lemma f_lt_irrefl (x : pyfloat) : f_lt x x = false.
Proof. float_order. Qed.

Lemma f_lt_asym (a b : pyfloat) : f_lt a b = true -> f_lt b a = false.
Proof. intros H. float_order. Qed.

Lemma f_lt_trans (a b c : pyfloat) :
  f_lt a b = true -> f_lt b c = true -> f_lt a c = true.
Proof. intros H1 H2. float_order. Qed.

Lemma f_eq_trans_r (a b c : pyfloat) :
  f_eq a c = true -> f_eq b c = true -> f_eq a b = true.
Proof. intros H1 H2. float_order. Qed.

Lemma f_eq_not_lt (a b : pyfloat) :
  f_eq a b = true -> f_lt a b = false /\ f_lt b a = false.
Proof. intros H. split; float_order. Qed.

(** The number of binary digits of a mantissa. *)
Lemma digits2_pos_bounds (m : positive) :
  (2 ^ (Z.pos (digits2_pos m) - 1) <= Z.pos m < 2 ^ Z.pos (digits2_pos m))%Z.
Proof.
  induction m as [m IH|m IH|]; cbn [digits2_pos].
  - rewrite Pos2Z.inj_succ.
    replace (Z.succ (Z.pos (digits2_pos m)) - 1)%Z with (Z.pos (digits2_pos m)) by lia.
    rewrite Z.pow_succ_r by lia.
    assert (E : (2 ^ Z.pos (digits2_pos m)
                 = 2 * 2 ^ (Z.pos (digits2_pos m) - 1))%Z).
    { rewrite <- Z.pow_succ_r by lia. f_equal. lia. }
    lia.
  - rewrite Pos2Z.inj_succ.
    replace (Z.succ (Z.pos (digits2_pos m)) - 1)%Z with (Z.pos (digits2_pos m)) by lia.
    rewrite Z.pow_succ_r by lia.
    assert (E : (2 ^ Z.pos (digits2_pos m)
                 = 2 * 2 ^ (Z.pos (digits2_pos m) - 1))%Z).
    { rewrite <- Z.pow_succ_r by lia. f_equal. lia. }
    lia.
  - simpl. lia.
Qed.

(** The mantissa of a binary64 number has at most 53 digits, and exactly 53
    above the least exponent. *)
Lemma binary64_mantissa (s : bool) (m : positive) (e : Z) :
  is_binary64 (S754_finite s m e) = true ->
  (Z.pos m < 2 ^ 53)%Z /\ (-1074 <= e <= 971)%Z /\
  ((-1074 < e)%Z -> (2 ^ 52 <= Z.pos m)%Z).
Proof.
  unfold is_binary64, valid_binary, bounded, canonical_mantissa, fexp, emin, prec, emax.
  intros H. apply andb_true_iff in H. destruct H as [Hc He].
  apply Z.leb_le in He.
  apply Z.eqb_eq in Hc.
  pose proof (digits2_pos_bounds m) as [Hlo Hhi].
  set (d := Z.pos (digits2_pos m)) in *.
  assert (Hd : (d <= 53)%Z) by lia.
  split.
  - eapply Z.lt_le_trans; [exact Hhi|]. apply Z.pow_le_mono_r; lia.
  - split; [lia|]. intros Hn.
    assert (E : d = 53%Z) by lia.
    rewrite E in Hlo. exact Hlo.
Qed.

(** The order of two positive floats: by exponent, then by mantissa. *)
Lemma f_lt_positive (m1 m2 : positive) (e1 e2 : Z) :
  f_lt (S754_finite false m1 e1) (S754_finite false m2 e2) = true <->
  (e1 < e2)%Z \/ (e1 = e2 /\ (Z.pos m1 < Z.pos m2)%Z).
Proof.
  unfold f_lt, SFltb, SFcompare.
  change (Pos.compare_cont Eq m1 m2) with (Pos.compare m1 m2).
  destruct (Z.compare_spec e1 e2) as [E|E|E].
  - destruct (Pos.compare_spec m1 m2) as [F|F|F]; split; intros H;
      try discriminate; try reflexivity.
    + destruct H as [H|[_ H]]; lia.
    + right. split; [exact E|]. lia.
    + destruct H as [H|[_ H]]; lia.
  - split; [intros _; left; exact E|reflexivity].
  - split; [discriminate|]. intros [H|[H _]]; lia.
Qed.

Lemma f_of_Z_ten : f_of_Z 10 = S754_finite false ten_mantissa (-49)%Z.
Proof. vm_compute. reflexivity. Qed.

(** [int] of a positive float: the mantissa shifted by the exponent. *)
Lemma f_int_positive (m : positive) (e n : Z) :
  f_int (S754_finite false m e) = Ok n ->
  ((0 <= e)%Z -> n = (Z.pos m * 2 ^ e)%Z) /\
  ((e < 0)%Z -> n = (Z.pos m / 2 ^ (- e))%Z).
Proof.
  intros H. destruct e as [|p|p]; cbn [f_int] in H; injection H as <-;
    (split; intros He; [try lia|try lia]); reflexivity.
Qed.

(** [int] of a float from 0 up to, and not including, 10 is one of 0..9. *)
Lemma f_int_below_ten (x : pyfloat) (n : Z) :
  is_binary64 x = true -> f_lt x (f_of_Z 0) = false -> f_lt x (f_of_Z 10) = true ->
  f_int x = Ok n -> (0 <= n <= 9)%Z.
Proof.
  intros Hv H0 H10 Hn.
  destruct x as [s|s| |s m e].
  - injection Hn as <-. lia.
  - discriminate Hn.
  - discriminate Hn.
  - destruct s; [discriminate H0|].
    apply binary64_mantissa in Hv. destruct Hv as (Hm & He & _).
    rewrite f_of_Z_ten in H10. apply f_lt_positive in H10.
    assert (Hten : (Z.pos ten_mantissa = 5629499534213120)%Z) by reflexivity.
    assert (Hm53 : (Z.pos m < 9007199254740992)%Z) by exact Hm.
    apply f_int_positive in Hn. destruct Hn as [_ Hn].
    rewrite Hn by lia.
    set (k := (- e)%Z).
    assert (Hk : (49 <= k)%Z) by lia.
    assert (Hp : (0 < 2 ^ k)%Z) by (apply Z.pow_pos_nonneg; lia).
    split; [apply Z.div_pos; lia|].
    assert (Hlt : (Z.pos m / 2 ^ k < 10)%Z); [|lia].
    apply Z.div_lt_upper_bound; [exact Hp|].
    destruct H10 as [E|[E Hm']].
    + assert (H50 : (2 ^ 50 <= 2 ^ k)%Z) by (apply Z.pow_le_mono_r; lia).
      assert (E50 : (2 ^ 50 = 1125899906842624)%Z) by reflexivity.
      lia.
    + assert (Ep : k = 49%Z) by lia. rewrite Ep.
      assert (E49 : (2 ^ 49 = 562949953421312)%Z) by reflexivity.
      lia.
Qed.

(** [int] of a float that is not below 10 is at least 10. *)
Lemma f_int_from_ten (x : pyfloat) (n : Z) :
  is_binary64 x = true -> f_lt x (f_of_Z 10) = false ->
  f_int x = Ok n -> (10 <= n)%Z.
Proof.
  intros Hv H10 Hn.
  rewrite f_of_Z_ten in H10.
  destruct x as [s|s| |s m e].
  - discriminate H10.
  - discriminate Hn.
  - discriminate Hn.
  - destruct s; [discriminate H10|].
    apply binary64_mantissa in Hv. destruct Hv as (Hm & He & Hnorm).
    assert (Hten : (Z.pos ten_mantissa = 5629499534213120)%Z) by reflexivity.
    assert (Hcase : (-49 < e)%Z \/ (e = (-49)%Z /\ (Z.pos ten_mantissa <= Z.pos m)%Z)).
    { destruct (Z.lt_trichotomy e (-49)%Z) as [E|[E|E]].
      - rewrite (proj2 (f_lt_positive m ten_mantissa e (-49)%Z)) in H10;
          [discriminate H10|left; exact E].
      - destruct (Z.lt_ge_cases (Z.pos m) (Z.pos ten_mantissa)) as [F|F].
        + rewrite (proj2 (f_lt_positive m ten_mantissa e (-49)%Z)) in H10;
            [discriminate H10|right; split; assumption].
        + right. split; assumption.
      - left. lia. }
    assert (Hbig : (-49 < e)%Z -> (4503599627370496 <= Z.pos m)%Z).
    { intros E. apply Hnorm. lia. }
    apply f_int_positive in Hn. destruct Hn as [Hnn Hneg].
    destruct (Z.lt_ge_cases e 0) as [E0|E0].
    + rewrite Hneg by exact E0.
      set (k := (- e)%Z).
      assert (Hp : (0 < 2 ^ k)%Z) by (apply Z.pow_pos_nonneg; lia).
      apply Z.div_le_lower_bound; [exact Hp|].
      destruct Hcase as [E|[E Hm']].
      * specialize (Hbig E).
        assert (H48 : (2 ^ k <= 2 ^ 48)%Z) by (apply Z.pow_le_mono_r; lia).
        assert (E48 : (2 ^ 48 = 281474976710656)%Z) by reflexivity.
        lia.
      * assert (Ep : k = 49%Z) by lia. rewrite Ep.
        assert (E49 : (2 ^ 49 = 562949953421312)%Z) by reflexivity.
        lia.
    + rewrite Hnn by lia.
      assert (Hb : (4503599627370496 <= Z.pos m)%Z) by (apply Hbig; lia).
      assert (Hp : (1 <= 2 ^ e)%Z).
      { change 1%Z with (2 ^ 0)%Z. apply Z.pow_le_mono_r; lia. }
      apply Z.le_trans with (Z.pos m * 1)%Z; [lia|].
      apply Z.mul_le_mono_nonneg_l; lia.
Qed.

(** ** [float] on text *)

Example float_of_string_400 :
  float_of_string "400" = Ok (f_of_Z 400) /\
  f_of_Z 400 = S754_finite false 7036874417766400 (-44)%Z.
Proof. split; vm_compute; reflexivity. Qed.

Example float_of_string_neg : float_of_string " -1.50e1 " = Ok (f_of_Z (-15)%Z).
Proof. vm_compute. reflexivity. Qed.

Example float_of_string_abc : float_of_string "abc" = Raise ValueError.
Proof. reflexivity. Qed.

Example float_of_string_inf :
  float_of_string "-Infinity" = Ok (S754_infinity true) /\
  float_of_string "nan" = Ok S754_nan.
Proof. split; reflexivity. Qed.

Example float_of_string_underscore :
  float_of_string "1_000.5" = float_of_string "1000.5" /\
  float_of_string "1__0" = Raise ValueError /\
  float_of_string "." = Raise ValueError.
Proof. repeat split; vm_compute; reflexivity. Qed.

(** A decimal is rounded to the nearest float: 0.1 is the float
    7205759403792794 * 2^-56, a long run of nines is 4.0, and an integer of
    more than 53 bits loses its last bit. *)
Example float_of_string_rounds :
  float_of_string "0.1" = Ok (S754_finite false 7205759403792794 (-56)%Z) /\
  float_of_string "3.9999999999999999999" = Ok (f_of_Z 4) /\
  float_of_string "9007199254740993" = Ok (f_of_Z 9007199254740992).
Proof. repeat split; vm_compute; reflexivity. Qed.

(** Beyond the range of the format a decimal becomes an infinity or a
    zero; neither is an error. *)
Example float_of_string_range :
  float_of_string "1e400" = Ok (S754_infinity false) /\
  float_of_string "1e-400" = Ok (S754_zero false) /\
  float_of_string "-1e-400" = Ok (S754_zero true) /\
  float_of_string "5e-324" = Ok (S754_finite false 1 (-1074)%Z).
Proof. repeat split; vm_compute; reflexivity. Qed.

(** The whitespace [float] ignores: a tab, a form feed and a no-break space
    are, a unit separator is not. *)
Example float_of_string_space :
  float_of_string (String (ascii_of_nat 9) (String (ascii_of_nat 160) "7"))
    = Ok (f_of_Z 7) /\
  float_of_string (String (ascii_of_nat 133) (String (ascii_of_nat 12) "7"))
    = Ok (f_of_Z 7) /\
  float_of_string (String (ascii_of_nat 31) "7") = Raise ValueError.
Proof. repeat split; vm_compute; reflexivity. Qed.

(** An integer converts to the nearest float, and one beyond the largest
    float raises. *)
Example float_of_int_range :
  py_float (JInt 9007199254740993) = Ok (f_of_Z 9007199254740992) /\
  py_float (JInt (10 ^ 400)) = Raise OverflowError /\
  py_format_f (JInt (10 ^ 400)) = Raise OverflowError.
Proof. repeat split; vm_compute; reflexivity. Qed.


(** ** The fetcher *)

Module FetcherSpec.

Import DataFetcher Reference.

Lemma make_request_ok (self : t) url params data :
  session self url params = Ok data -> _make_request self url params = Ok data.
Proof. intros H. unfold _make_request. rewrite H. reflexivity. Qed.

(** A transport failure becomes the unavailable value. *)
Lemma make_request_failure (self : t) url params :
  session self url params = Raise RequestException ->
  _make_request self url params = Ok JNull.
Proof. intros H. unfold _make_request. rewrite H. reflexivity. Qed.

(** *** Windowed numeric feeds *)

(** C8, as stated, fails on the empty list: the K-index normalizer returns
    the unavailable value for it, not the (empty) list of its last 20
    elements. *)
Lemma k_index_empty_list_unavailable :
  get_geomagnetic_index (serving (Ok (JList []))) = Ok JNull /\
  get_geomagnetic_index (serving (Ok (JList []))) <> Ok (JList (py_last 20 [])).
Proof. split; [reflexivity | discriminate]. Qed.

(** C8, amended: the K-index normalizer returns the unavailable value for a
    non-list input and for the empty list, and the last 20 elements of a
    non-empty list, verbatim and in order (the last 20 of 25); the flux
    normalizer does the same with a window of 5. *)
Theorem windowed_numeric_feeds (self : t) (kdata fdata : json)
  (Hk : session self (noaa_base self ++ "json/planetary_k_index_1m.json") None = Ok kdata)
  (Hf : session self (noaa_base self ++ "json/f10_7cm.json") None = Ok fdata) :
  (is_list kdata = false -> get_geomagnetic_index self = Ok JNull) /\
  (kdata = JList [] -> get_geomagnetic_index self = Ok JNull) /\
  (forall l, kdata = JList l -> l <> [] ->
     get_geomagnetic_index self = Ok (JList (py_last 20 l))) /\
  (forall l, kdata = JList l -> List.length l = 25%nat ->
     get_geomagnetic_index self = Ok (JList (skipn 5 l))) /\
  (is_list fdata = false -> get_solar_flux self = Ok JNull) /\
  (fdata = JList [] -> get_solar_flux self = Ok JNull) /\
  (forall l, fdata = JList l -> l <> [] ->
     get_solar_flux self = Ok (JList (py_last 5 l))).
Proof.
  unfold get_geomagnetic_index, get_solar_flux.
  rewrite (make_request_ok _ _ _ Hk), (make_request_ok _ _ _ Hf). simpl.
  repeat split.
  - destruct kdata; simpl; intros H; try reflexivity; discriminate.
  - intros ->. reflexivity.
  - intros l -> Hl. destruct l; [contradiction|reflexivity].
  - intros l -> Hl. destruct l; [discriminate|]. simpl truthy. cbv iota.
    unfold py_last. rewrite Hl. reflexivity.
  - destruct fdata; simpl; intros H; try reflexivity; discriminate.
  - intros ->. reflexivity.
  - intros l -> Hl. destruct l; [contradiction|reflexivity].
Qed.

Lemma windowed_numeric_feeds_witness :
  get_geomagnetic_index (serving (Ok (JList k_samples)))
    = Ok (JList (map (fun i => JInt (Z.of_nat i)) (seq 5 20))) /\
  get_solar_flux (serving (Ok (JList k_samples)))
    = Ok (JList (map (fun i => JInt (Z.of_nat i)) (seq 20 5))).
Proof.
  destruct (@windowed_numeric_feeds (serving (Ok (JList k_samples)))
              (JList k_samples) (JList k_samples) eq_refl eq_refl)
    as (_ & _ & _ & H25 & _ & _ & H5).
  split.
  - exact (H25 k_samples eq_refl eq_refl).
  - apply (H5 k_samples eq_refl). discriminate.
Defined.

(** *** Responses that are not lists of objects *)

(** C1 fails on the code: with a JSON object as response body the four NASA
    operations raise to the caller, while the NOAA operations, which test
    [isinstance(data, list)], return the unavailable value for the same
    body. *)
Theorem object_response_raises :
  let self := serving (Ok (JObj [("error", JStr "bad request")])) in
  get_cme_events self "2024-01-01" "2024-01-08" = Raise AttributeError /\
  get_solar_flares self "2024-01-01" "2024-01-08" = Raise AttributeError /\
  get_geomagnetic_storms self "2024-01-01" "2024-01-08" = Raise AttributeError /\
  raises (get_space_weather_alerts self) /\
  get_solar_wind_data self = Ok JNull /\
  get_geomagnetic_index self = Ok JNull /\
  get_solar_flux self = Ok JNull.
Proof.
  repeat split; try reflexivity.
  exists TypeError. reflexivity.
Qed.

(** A list whose elements are not objects has the same effect. *)
Lemma number_list_response_raises :
  get_cme_events (serving (Ok (JList [JInt 1]))) "2024-01-01" "2024-01-08"
    = Raise AttributeError.
Proof. reflexivity. Qed.

(** *** Permissive key lookup *)

Lemma py_get_field key default e :
  is_dict e -> py_get e key default = Ok (field key default e).
Proof. destruct e; simpl; intros H; try contradiction. reflexivity. Qed.

Lemma field_missing key default e : missing key e -> field key default e = default.
Proof. destruct e; simpl; intros H; try reflexivity. rewrite H. reflexivity. Qed.

Lemma cme_record_ok e : is_dict e -> cme_record e = Ok (cme_event e).
Proof.
  intros H. unfold cme_record, cme_event.
  rewrite !py_get_field by exact H. reflexivity.
Qed.

Lemma flare_record_ok f : is_dict f -> flare_record f = Ok (flare_event f).
Proof.
  intros H. unfold flare_record, flare_event.
  rewrite !py_get_field by exact H. reflexivity.
Qed.

Lemma storm_kp_index_ok s : storm_ok s -> storm_kp_index s = Ok (storm_kp s).
Proof.
  intros [Hd Hk]. unfold storm_kp_index, storm_kp.
  rewrite py_get_field by exact Hd. simpl.
  destruct s as [| | | | | |items]; try contradiction.
  unfold field in *. simpl py_getitem.
  destruct (assoc "allKpIndex" items) as [v|] eqn:Hv; [|reflexivity].
  destruct v as [| | | | |l|]; try (rewrite Hk; reflexivity).
  destruct l as [|first l]; [reflexivity|].
  simpl. destruct first; try contradiction. reflexivity.
Qed.

Lemma storm_record_ok s : storm_ok s -> storm_record s = Ok (storm_event s).
Proof.
  intros H. unfold storm_record, storm_event.
  rewrite storm_kp_index_ok by exact H. simpl.
  rewrite !py_get_field by apply H. reflexivity.
Qed.

Lemma mapM_Forall {A B : Type} (P : A -> Prop) (f : A -> result B) (g : A -> B) l :
  (forall x, P x -> f x = Ok (g x)) -> Forall P l -> mapM f l = Ok (map g l).
Proof.
  intros H HP. apply mapM_ok_map. intros x Hx.
  apply H. rewrite Forall_forall in HP. apply HP, Hx.
Qed.

Lemma storms_normalised (self : t) start_date end_date data :
  session self (nasa_base self ++ "GST") (date_params self start_date end_date)
    = Ok (JList data) ->
  data <> [] -> Forall storm_ok data ->
  get_geomagnetic_storms self start_date end_date
    = Ok (JList (firstn 5 (map storm_event data))).
Proof.
  intros H Hne Hok. unfold get_geomagnetic_storms.
  rewrite (make_request_ok _ _ _ H). simpl.
  destruct data as [|d data]; [contradiction|]. cbv iota.
  change (negb true) with false. cbv iota.
  rewrite (mapM_Forall storm_record storm_event storm_record_ok Hok).
  reflexivity.
Qed.

(** C6, as stated, fails: a key missing from the element gives null in the
    normalized record, which is neither ["N/A"] nor the empty string. *)
Lemma missing_key_gives_null :
  exists r,
    get_cme_events (serving (Ok (JList [JObj []]))) "2024-01-01" "2024-01-08"
      = Ok (JList [r]) /\
    field "startTime" (JStr "absent") r = JNull /\
    JNull <> JStr "N/A" /\ JNull <> JStr "".
Proof.
  eexists. split; [reflexivity|].
  split; [reflexivity|]. split; discriminate.
Qed.

(** C6, amended: for a non-empty CME, flare or storm response whose elements
    are objects (for storms: with a well-formed nested list), every field is
    looked up permissively, a missing key giving null, or the empty string
    for [link], and never an error; the normalized list is the first 5
    records. *)
Theorem event_feeds_normalised (self : t) (start_date end_date : string)
  (cdata fdata sdata : list json)
  (Hc : session self (nasa_base self ++ "CME") (date_params self start_date end_date)
          = Ok (JList cdata))
  (Hf : session self (nasa_base self ++ "FLR") (date_params self start_date end_date)
          = Ok (JList fdata))
  (Hs : session self (nasa_base self ++ "GST") (date_params self start_date end_date)
          = Ok (JList sdata))
  (Hcne : cdata <> []) (Hfne : fdata <> []) (Hsne : sdata <> [])
  (Hcd : Forall is_dict cdata) (Hfd : Forall is_dict fdata)
  (Hsd : Forall storm_ok sdata) :
  get_cme_events self start_date end_date = Ok (JList (firstn 5 (map cme_event cdata))) /\
  get_solar_flares self start_date end_date = Ok (JList (firstn 5 (map flare_event fdata))) /\
  get_geomagnetic_storms self start_date end_date
    = Ok (JList (firstn 5 (map storm_event sdata))) /\
  (forall key e, missing key e ->
     field key JNull e = JNull /\ field key (JStr "") e = JStr "").
Proof.
  split; [|split; [|split]].
  - unfold get_cme_events. rewrite (make_request_ok _ _ _ Hc). simpl.
    destruct cdata as [|d data]; [contradiction|]. cbv iota.
    change (negb true) with false. cbv iota.
    rewrite (mapM_Forall cme_record cme_event cme_record_ok Hcd). reflexivity.
  - unfold get_solar_flares. rewrite (make_request_ok _ _ _ Hf). simpl.
    destruct fdata as [|d data]; [contradiction|]. cbv iota.
    change (negb true) with false. cbv iota.
    rewrite (mapM_Forall flare_record flare_event flare_record_ok Hfd). reflexivity.
  - exact (storms_normalised _ _ _ Hs Hsne Hsd).
  - intros key e H. split; apply field_missing; exact H.
Qed.

Lemma event_feeds_normalised_witness :
  let e := JObj [("startTime", JStr "2024-01-02T03:04Z")] in
  let self := serving (Ok (JList [e])) in
  get_cme_events self "2024-01-01" "2024-01-08"
    = Ok (JList [JObj [("startTime", JStr "2024-01-02T03:04Z");
                       ("sourceLocation", JNull); ("catalog", JNull);
                       ("link", JStr "")]]) /\
  get_geomagnetic_storms self "2024-01-01" "2024-01-08"
    = Ok (JList [JObj [("startTime", JStr "2024-01-02T03:04Z");
                       ("kpIndex", JNull); ("link", JStr "")]]).
Proof.
  intros e self.
  assert (Hd : Forall is_dict [e]) by (constructor; [exact I | constructor]).
  assert (Hs : Forall storm_ok [e]).
  { constructor; [split; [exact I | reflexivity] | constructor]. }
  assert (Hne : [e] <> []) by discriminate.
  destruct (@event_feeds_normalised self "2024-01-01" "2024-01-08" [e] [e] [e]
              eq_refl eq_refl eq_refl Hne Hne Hne Hd Hd Hs) as (Hc & _ & Hg & _).
  split; [exact Hc | exact Hg].
Defined.

(** C9: for an element of a non-empty storm response, the [kp_index] is the
    [kpIndex] field of the first element of the nested [allKpIndex] list
    when that list is present and non-empty, and null when it is absent or
    empty; the extraction does not fail, and neither does the operation. *)
Theorem storm_kp_index_extraction (self : t) (start_date end_date : string)
  (data : list json)
  (H : session self (nasa_base self ++ "GST") (date_params self start_date end_date)
         = Ok (JList data))
  (Hne : data <> []) (Hok : Forall storm_ok data) :
  (forall s, In s data ->
     (forall first rest,
        field "allKpIndex" JNull s = JList (first :: rest) ->
        storm_kp_index s = Ok (field "kpIndex" JNull first)) /\
     (missing "allKpIndex" s \/ field "allKpIndex" JNull s = JList [] ->
        storm_kp_index s = Ok JNull) /\
     storm_record s
       = Ok (JObj [("startTime", field "startTime" JNull s);
                   ("kpIndex", storm_kp s);
                   ("link", field "link" (JStr "") s)])) /\
  get_geomagnetic_storms self start_date end_date
    = Ok (JList (firstn 5 (map storm_event data))).
Proof.
  split; [|exact (storms_normalised _ _ _ H Hne Hok)].
  intros s Hs. rewrite Forall_forall in Hok. specialize (Hok s Hs).
  split; [|split].
  - intros first rest Hl. rewrite (storm_kp_index_ok Hok).
    unfold storm_kp. rewrite Hl. reflexivity.
  - intros Hm. rewrite (storm_kp_index_ok Hok). unfold storm_kp.
    destruct Hm as [Hm|Hm].
    + rewrite (field_missing _ _ _ Hm). reflexivity.
    + rewrite Hm. reflexivity.
  - exact (storm_record_ok Hok).
Qed.

Lemma storm_kp_index_extraction_witness :
  let s1 := JObj [("startTime", JStr "t1");
                  ("allKpIndex", JList [JObj [("kpIndex", JInt 6)]; JObj [("kpIndex", JInt 7)]])] in
  let s2 := JObj [("startTime", JStr "t2"); ("allKpIndex", JList [])] in
  let s3 := JObj [("startTime", JStr "t3")] in
  get_geomagnetic_storms (serving (Ok (JList [s1; s2; s3]))) "2024-01-01" "2024-01-08"
    = Ok (JList [JObj [("startTime", JStr "t1"); ("kpIndex", JInt 6); ("link", JStr "")];
                 JObj [("startTime", JStr "t2"); ("kpIndex", JNull); ("link", JStr "")];
                 JObj [("startTime", JStr "t3"); ("kpIndex", JNull); ("link", JStr "")]]).
Proof.
  intros s1 s2 s3.
  assert (Hok : Forall storm_ok [s1; s2; s3]).
  { repeat constructor. }
  assert (Hne : [s1; s2; s3] <> []) by discriminate.
  exact (proj2 (@storm_kp_index_extraction (serving (Ok (JList [s1; s2; s3])))
                  "2024-01-01" "2024-01-08" [s1; s2; s3] eq_refl Hne Hok)).
Defined.

(** *** Alerts *)

Lemma alert_record_ok a : alert_ok a -> alert_record a = Ok (alert_event a).
Proof.
  intros [Hd [b Hb]]. unfold alert_record, alert_event, alert_body, body_text.
  rewrite !py_get_field by exact Hd. rewrite Hb. reflexivity.
Qed.

(** C7: for a non-empty alerts response (a list whose first five elements
    are objects with a textual body, or none), the normalizer returns the
    records of at most the first 5 elements, and every [messageBody] is the
    first 200 characters of the original body followed by ["..."]: a body
    of more than 200 characters loses what follows the 200th, and a body of
    200 characters or fewer is kept whole and still gets the marker.  A
    body of 205 characters is cut to its first 200. *)
Theorem alerts_fixed_truncation (self : t) (data : list json)
  (H : session self (nasa_base self ++ "notifications")
         (Some [("type", "all"); ("api_key", nasa_api_key self)]) = Ok (JList data))
  (Hne : data <> []) (Hok : Forall alert_ok (firstn 5 data)) :
  get_space_weather_alerts self = Ok (JList (map alert_event (firstn 5 data))) /\
  (List.length (map alert_event (firstn 5 data)) <= 5)%nat /\
  (forall a, In a (firstn 5 data) ->
     (forall pre rest : string,
        body_text a = (pre ++ rest)%string -> String.length pre = 200%nat ->
        field "messageBody" JNull (alert_event a) = JStr (pre ++ "...")%string) /\
     ((String.length (body_text a) <= 200)%nat ->
      field "messageBody" JNull (alert_event a) = JStr (body_text a ++ "...")%string)) /\
  get_space_weather_alerts (serving (Ok (JList long_alert)))
    = Ok (JList [JObj [("messageType", JStr "Alert");
                       ("messageIssueTime", JStr "2024-01-01T00:00Z");
                       ("messageBody",
                        JStr (string_of_list_ascii (repeat "a"%char 200) ++ "..."))]]).
Proof.
  split; [|split; [|split]].
  - unfold get_space_weather_alerts. rewrite (make_request_ok _ _ _ H).
    destruct data as [|d data]; [contradiction|].
    cbn [bind truthy negb py_slice_to py_iter].
    rewrite (mapM_Forall alert_record alert_event alert_record_ok Hok).
    reflexivity.
  - rewrite length_map, length_firstn. lia.
  - intros a _. split.
    + intros pre rest Hbody Hlen.
      change (field "messageBody" JNull (alert_event a))
        with (JStr (str_take 200 (body_text a) ++ "...")%string).
      rewrite Hbody, <- Hlen, str_take_app. reflexivity.
    + intros Hlen.
      change (field "messageBody" JNull (alert_event a))
        with (JStr (str_take 200 (body_text a) ++ "...")%string).
      rewrite str_take_all by exact Hlen. reflexivity.
  - vm_compute. reflexivity.
Qed.

Lemma alerts_fixed_truncation_witness :
  String.length long_body = 205%nat /\
  get_space_weather_alerts (serving (Ok (JList long_alert)))
    = Ok (JList [JObj [("messageType", JStr "Alert");
                       ("messageIssueTime", JStr "2024-01-01T00:00Z");
                       ("messageBody",
                        JStr (string_of_list_ascii (repeat "a"%char 200) ++ "..."))]]) /\
  get_space_weather_alerts (serving (Ok (JList alerts_example)))
    = Ok (JList [JObj [("messageType", JStr "Report"); ("messageIssueTime", JNull);
                       ("messageBody", JStr "CME observed by the coronagraph...")]]).
Proof.
  assert (Hok : Forall alert_ok (firstn 5 long_alert)).
  { repeat constructor. exists long_body. reflexivity. }
  assert (Hne : long_alert <> []) by discriminate.
  assert (Hok' : Forall alert_ok (firstn 5 alerts_example)).
  { repeat constructor. exists "CME observed by the coronagraph". reflexivity. }
  assert (Hne' : alerts_example <> []) by discriminate.
  split; [reflexivity|]. split.
  - exact (proj1 (@alerts_fixed_truncation (serving (Ok (JList long_alert)))
                    long_alert eq_refl Hne Hok)).
  - exact (proj1 (@alerts_fixed_truncation (serving (Ok (JList alerts_example)))
                    alerts_example eq_refl Hne' Hok')).
Defined.

(** *** Wind samples *)

Lemma float_of_string_raise s e : float_of_string s = Raise e -> e = ValueError.
Proof.
  unfold float_of_string.
  destruct (read_sign (strip s)) as [neg body].
  destruct (_ || _); [discriminate|].
  destruct (String.eqb _ _); [discriminate|].
  destruct (digitpart body 0 0) as [[ip ni] s1].
  destruct (match s1 with String "." s1' => _ | _ => _ end) as [[fp nf] s2].
  destruct (ni + nf)%nat; [intros [= <-]; reflexivity|].
  destruct (read_exponent s2); [discriminate|].
  intros [= <-]; reflexivity.
Qed.

Lemma float_of_int_raise z e : float_of_int z = Raise e -> e = OverflowError.
Proof.
  unfold float_of_int. destruct (f_of_Z z); try discriminate.
  intros [= <-]. reflexivity.
Qed.

Lemma py_float_raise v e : py_float v = Raise e -> is_Exception e = true.
Proof.
  destruct v as [|b|z|f|s|l|items]; cbn [py_float];
    try discriminate; try (intros [= <-]; reflexivity).
  - intros H. apply float_of_int_raise in H. subst. reflexivity.
  - intros H. apply float_of_string_raise in H. subst. reflexivity.
Qed.

(** The body of the [try] either appends the reference sample, or appends
    nothing, or raises an exception that the handler catches. *)
Lemma wind_sample_refines d :
  match DataFetcher.wind_sample d with
  | Ok r => r = Reference.wind_sample d
  | Raise e => is_Exception e = true /\ Reference.wind_sample d = None
  end.
Proof.
  destruct d as [| | | | | |items]; try (split; reflexivity).
  unfold DataFetcher.wind_sample, Reference.wind_sample, coerced.
  rewrite !py_get_field by exact I. cbn [bind].
  destruct (py_float (field "proton_speed" (JInt 0) (JObj items))) as [speed|e] eqn:Hs;
    cbn [bind]; [|split; [exact (py_float_raise _ Hs) | reflexivity]].
  destruct (py_float (field "proton_density" (JInt 0) (JObj items))) as [density|e] eqn:Hd;
    cbn [bind]; [|split; [exact (py_float_raise _ Hd) | reflexivity]].
  destruct (f_gt speed (f_of_Z 0)); reflexivity.
Qed.

(** The wind loop never aborts and collects the qualifying samples. *)
Lemma wind_loop_qualifying data : wind_loop data = Ok (qualifying data).
Proof.
  induction data as [|d data IH]; [reflexivity|].
  simpl. pose proof (wind_sample_refines d) as H.
  destruct (DataFetcher.wind_sample d) as [[r|]|e].
  - rewrite <- H, IH. reflexivity.
  - rewrite <- H. exact IH.
  - destruct H as [He ->]. rewrite He. exact IH.
Qed.

Lemma qualifying_In r data :
  In r (qualifying data) ->
  exists d speed density,
    In d data /\
    coerced "proton_speed" d = Some speed /\
    coerced "proton_density" d = Some density /\
    f_gt speed (f_of_Z 0) = true /\
    r = JObj [("time_tag", field "time_tag" JNull d);
              ("speed", JFloat speed); ("density", JFloat density)].
Proof.
  induction data as [|d data IH]; simpl; [contradiction|].
  destruct (Reference.wind_sample d) as [r'|] eqn:Hd.
  - intros [<-|Hin].
    + unfold Reference.wind_sample in Hd.
      destruct (coerced "proton_speed" d) as [speed|] eqn:Hs; [|discriminate].
      destruct (coerced "proton_density" d) as [density|] eqn:Hde; [|discriminate].
      destruct (f_gt speed (f_of_Z 0)) eqn:Hgt; [|discriminate].
      injection Hd as <-. exists d, speed, density.
      repeat split; try assumption. left. reflexivity.
    + destruct (IH Hin) as (d' & s & de & Hd' & H'). exists d', s, de.
      split; [right; exact Hd' | exact H'].
  - intros Hin. destruct (IH Hin) as (d' & s & de & Hd' & H'). exists d', s, de.
    split; [right; exact Hd' | exact H'].
Qed.

(** C5: for every list input the wind normalizer does not abort; an element
    whose speed or density does not coerce is skipped, only elements with a
    coerced speed above 0 are kept, and the qualifying samples are returned
    in the order of the input: all of them when there are at most 60, and
    otherwise the 60 that remain after dropping the earliest ones; the
    unavailable value when there is none.  The example of the specification
    gives exactly one sample, speed 400.0 and density 5.0, and of 65
    qualifying elements the first 5 are dropped. *)
Theorem wind_samples_normalised (self : t) (data : list json)
  (H : session self (noaa_base self ++ "json/rtsw/rtsw_wind_1m.json") None
         = Ok (JList data)) :
  get_solar_wind_data self
    = Ok (match qualifying data with
          | [] => JNull
          | _ => JList (py_last 60 (qualifying data))
          end) /\
  (qualifying data <> [] -> (List.length (qualifying data) <= 60)%nat ->
   get_solar_wind_data self = Ok (JList (qualifying data))) /\
  ((60 < List.length (qualifying data))%nat ->
   exists dropped kept,
     qualifying data = dropped ++ kept /\ List.length kept = 60%nat /\
     get_solar_wind_data self = Ok (JList kept)) /\
  (forall r, In r (qualifying data) ->
     exists d speed density,
       In d data /\
       coerced "proton_speed" d = Some speed /\
       coerced "proton_density" d = Some density /\
       f_gt speed (f_of_Z 0) = true /\
       r = JObj [("time_tag", field "time_tag" JNull d);
                 ("speed", JFloat speed); ("density", JFloat density)]) /\
  get_solar_wind_data (serving (Ok (JList wind_example)))
    = Ok (JList [JObj [("time_tag", JNull); ("speed", JFloat (f_of_Z 400));
                       ("density", JFloat (f_of_Z 5))]]) /\
  get_solar_wind_data (serving (Ok (JList wind_batch)))
    = Ok (JList (map batch_sample (seq 5 60))).
Proof.
  assert (Hget : get_solar_wind_data self
                 = Ok (match qualifying data with
                       | [] => JNull
                       | _ => JList (py_last 60 (qualifying data))
                       end)).
  { unfold get_solar_wind_data. rewrite (make_request_ok _ _ _ H). cbn [bind].
    rewrite wind_loop_qualifying. cbn [bind].
    destruct (qualifying data); reflexivity. }
  split; [exact Hget|]. split; [|split; [|split; [|split]]].
  - intros Hne Hlen. rewrite Hget.
    destruct (qualifying data) as [|r q] eqn:E; [contradiction|].
    rewrite py_last_short by exact Hlen. reflexivity.
  - intros Hlen.
    exists (firstn (List.length (qualifying data) - 60) (qualifying data)),
           (py_last 60 (qualifying data)).
    split; [symmetry; apply py_last_suffix|].
    split; [rewrite py_last_length; lia|].
    rewrite Hget.
    destruct (qualifying data) as [|r q] eqn:E; [simpl in Hlen; lia|].
    reflexivity.
  - intros r. apply qualifying_In.
  - vm_compute. reflexivity.
  - vm_compute. reflexivity.
Qed.

Lemma wind_samples_normalised_witness :
  List.length wind_batch = 65%nat /\
  get_solar_wind_data (serving (Ok (JList wind_batch)))
    = Ok (JList (map batch_sample (seq 5 60))) /\
  get_solar_wind_data (serving (Ok (JList wind_example)))
    = Ok (JList [JObj [("time_tag", JNull); ("speed", JFloat (f_of_Z 400));
                       ("density", JFloat (f_of_Z 5))]]).
Proof.
  split; [reflexivity|]. split.
  - rewrite (proj1 (@wind_samples_normalised (serving (Ok (JList wind_batch)))
                      wind_batch eq_refl)).
    vm_compute. reflexivity.
  - rewrite (proj1 (@wind_samples_normalised (serving (Ok (JList wind_example)))
                      wind_example eq_refl)).
    vm_compute. reflexivity.
Defined.

End FetcherSpec.

(** ** The sparkline and the wind plot *)

Module PlotterSpec.

Import Plotter Reference.

Lemma mapM_Forall_out {A B : Type} (f : A -> result B) (P : B -> Prop) (l : list A) :
  (forall a b, f a = Ok b -> P b) ->
  forall bs, mapM f l = Ok bs -> Forall P bs.
Proof.
  intros Hf. induction l as [|a l IH]; intros bs H; simpl in H.
  - injection H as <-. constructor.
  - destruct (f a) as [b|e] eqn:Ha; simpl in H; [|discriminate].
    destruct (mapM f l) as [bs'|e]; simpl in H; [|discriminate].
    injection H as <-. constructor; [exact (Hf _ _ Ha) | apply IH; reflexivity].
Qed.

(** When [_normalize] returns, it returns one index per value. *)
Lemma normalize_length (values : list pyfloat) (length : Z) (idxs : list Z) :
  _normalize values length = Ok idxs -> List.length idxs = List.length values.
Proof.
  destruct values as [|v0 vs]; [intros [= <-]; reflexivity|].
  unfold _normalize. destruct (f_eq _ _).
  - intros [= <-]. simpl. f_equal. apply repeat_length.
  - apply mapM_length.
Qed.

(** A character taken from the palette is one of its eight glyphs. *)
Lemma spark_char_palette (i : Z) (c : N) : spark_char i = Ok c -> In c _SPARK_CHARS.
Proof.
  unfold spark_char. destruct (_ && _); [|discriminate].
  destruct (nth_error _ _) as [c'|] eqn:E; [|discriminate].
  intros [= <-]. exact (nth_error_In _ _ E).
Qed.

(** When [sparkline] returns, it returns one glyph of the palette per
    value. *)
Lemma sparkline_length (values : list pyfloat) (sline : list N) :
  sparkline values = Ok sline ->
  List.length sline = List.length values /\
  Forall (fun c => In c _SPARK_CHARS) sline.
Proof.
  unfold sparkline. intros H.
  destruct (_normalize values levels) as [idxs|e] eqn:Hn; [|discriminate].
  cbn [bind] in H. split.
  - rewrite (mapM_length _ _ H). exact (normalize_length _ _ Hn).
  - exact (mapM_Forall_out spark_char _ idxs spark_char_palette H).
Qed.

(** The speeds 5, 1 and 9 are at the levels 3, 0 and 7. *)
Lemma sparkline_example :
  _normalize [f_of_Z 5; f_of_Z 1; f_of_Z 9] levels = Ok [3; 0; 7]%Z /\
  sparkline [f_of_Z 5; f_of_Z 1; f_of_Z 9] = Ok [0x2584; 0x2581; 0x2588]%N.
Proof. split; vm_compute; reflexivity. Qed.

(** The degenerate series: every value at the middle level. *)
Lemma sparkline_flat : sparkline [f_of_Z 3; f_of_Z 3] = Ok [0x2585; 0x2585]%N.
Proof. vm_compute. reflexivity. Qed.

(** A series with an infinite value makes [int] raise. *)
Lemma sparkline_infinite_raises :
  sparkline [S754_infinity false; f_of_Z 400] = Raise ValueError.
Proof. vm_compute. reflexivity. Qed.

(** The level is computed in floating point: for 0.0, 0.3 and 2.1 the
    quotient 0.3 / 2.1 times 7 rounds to 1.0, and the middle value is at
    level 1. *)
Lemma normalize_rounds :
  (v1 <- float_of_string "0.0" ;; v2 <- float_of_string "0.3" ;;
   v3 <- float_of_string "2.1" ;; _normalize [v1; v2; v3] levels)
  = Ok [0; 1; 7]%Z.
Proof. vm_compute. reflexivity. Qed.

(** C4: the sparkline does not have one glyph per value for every list of
    numbers.  [_normalize] documents indices between 0 and length-1 for a
    list of floats, and the empty list does give the empty glyph string;
    but for the two finite floats 2^1023 and -2^1023 the difference of the
    extremes overflows to infinity, the quotient of the two infinities is
    nan, and [int] raises [ValueError]: no glyph string is returned. *)
Theorem sparkline_range_overflow :
  sparkline [] = Ok [] /\
  is_binary64 two_1023 = true /\ is_binary64 (SFopp two_1023) = true /\
  is_finite two_1023 /\ is_finite (SFopp two_1023) /\
  py_min two_1023 [SFopp two_1023] = SFopp two_1023 /\
  py_max two_1023 [SFopp two_1023] = two_1023 /\
  f_sub two_1023 (SFopp two_1023) = S754_infinity false /\
  f_div (S754_infinity false) (S754_infinity false) = Ok S754_nan /\
  _normalize [two_1023; SFopp two_1023] levels = Raise ValueError /\
  sparkline [two_1023; SFopp two_1023] = Raise ValueError.
Proof.
  split; [reflexivity|].
  split; [vm_compute; reflexivity|].
  split; [vm_compute; reflexivity|].
  split; [exact I|]. split; [exact I|].
  repeat split; vm_compute; reflexivity.
Qed.

Section WindPlotSpec.

Variable strptime_hm : string -> string -> option string.

(** With speeds to plot, the plot is the chart of the speeds, unless the
    sparkline raises. *)
Lemma plot_chart (wind times : list json) (s0 : pyfloat) (ss : list pyfloat) :
  collect strptime_hm (py_last 30 wind) [] [] = Ok (times, s0 :: ss) ->
  exists m,
    nth_error (s0 :: ss) (List.length (s0 :: ss) / 2) = Some m /\
    create_wind_speed_plot strptime_hm (JList wind)
      = (sline <- sparkline (s0 :: ss) ;;
         Ok (Chart sline (py_min s0 ss) (py_max s0 ss) m
               (hd (JStr "") times) (last times (JStr "")))).
Proof.
  intros Hc.
  destruct wind as [|w wind].
  { simpl in Hc. discriminate Hc. }
  unfold create_wind_speed_plot. cbn [truthy negb].
  rewrite Hc. cbn [bind].
  destruct (nth_error (s0 :: ss) (List.length (s0 :: ss) / 2)) as [m|] eqn:Hm.
  - exists m. split; [reflexivity|].
    destruct (sparkline (s0 :: ss)); reflexivity.
  - apply nth_error_None in Hm. exfalso.
    assert (List.length (s0 :: ss) / 2 < List.length (s0 :: ss))%nat.
    { apply Nat.div_lt; simpl; lia. }
    lia.
Qed.

Lemma median_example_collect :
  exists times,
    collect strptime_hm (py_last 30 median_example) [] []
      = Ok (times, [f_of_Z 5; f_of_Z 1; f_of_Z 9]).
Proof.
  unfold median_example, py_last. cbn [List.length Nat.sub skipn].
  cbn [collect py_get assoc String.eqb Ascii.eqb Bool.eqb bind truthy negb
       is_None orb time_label py_float].
  repeat match goal with
  | |- context [strptime_hm ?f ?s] => destruct (strptime_hm f s)
  end; cbn [bind py_slice_to str_take app]; eexists; reflexivity.
Qed.

(** C3: for every non-empty sequence of numbers summarised for the wind
    plot, the reported median is the element at index [len // 2] of the
    sequence in its given order: the plot is the chart with that element as
    its median, or the exception of the sparkline drawn before it.  For the
    speeds 5, 1, 9 the chart reports 1. *)
Theorem median_is_positional (wind times : list json) (s0 : pyfloat)
  (ss : list pyfloat)
  (Hc : collect strptime_hm (py_last 30 wind) [] [] = Ok (times, s0 :: ss)) :
  (exists m,
     nth_error (s0 :: ss) (List.length (s0 :: ss) / 2) = Some m /\
     create_wind_speed_plot strptime_hm (JList wind)
       = (sline <- sparkline (s0 :: ss) ;;
          Ok (Chart sline (py_min s0 ss) (py_max s0 ss) m
                (hd (JStr "") times) (last times (JStr "")))) /\
     (forall sline, sparkline (s0 :: ss) = Ok sline ->
        create_wind_speed_plot strptime_hm (JList wind)
          = Ok (Chart sline (py_min s0 ss) (py_max s0 ss) m
                  (hd (JStr "") times) (last times (JStr ""))))) /\
  (exists left_time right_time,
     create_wind_speed_plot strptime_hm (JList median_example)
       = Ok (Chart [0x2584; 0x2581; 0x2588]%N (f_of_Z 1) (f_of_Z 9) (f_of_Z 1)
               left_time right_time) /\
     nth_error [f_of_Z 5; f_of_Z 1; f_of_Z 9] 1 = Some (f_of_Z 1)).
Proof.
  split.
  - destruct (plot_chart _ Hc) as (m & Hm & Hp).
    exists m. split; [exact Hm|]. split; [exact Hp|].
    intros sline Hs. rewrite Hp, Hs. reflexivity.
  - destruct median_example_collect as (ts & Hts).
    destruct (plot_chart _ Hts) as (m & Hm & Hp).
    simpl in Hm. injection Hm as <-.
    exists (hd (JStr "") ts), (last ts (JStr "")). split; [|reflexivity].
    rewrite Hp. rewrite (proj2 sparkline_example). cbn [bind].
    f_equal; f_equal; vm_compute; reflexivity.
Qed.

End WindPlotSpec.

Lemma median_is_positional_witness :
  create_wind_speed_plot clock (JList median_example)
    = Ok (Chart [0x2584; 0x2581; 0x2588]%N (f_of_Z 1) (f_of_Z 9) (f_of_Z 1)
            (JStr "00:00") (JStr "00:02")).
Proof.
  destruct (@median_is_positional clock median_example
              [JStr "00:00"; JStr "00:01"; JStr "00:02"]
              (f_of_Z 5) [f_of_Z 1; f_of_Z 9] eq_refl)
    as [(m & Hm & Hp & _) _].
  rewrite Hp. simpl in Hm. injection Hm as <-.
  vm_compute. reflexivity.
Defined.

End PlotterSpec.

(** ** The refresh loop *)

Module DashboardSpec.

Import Dashboard Reference.

(** The K-index panel raises on a sample whose index is null; the fetcher
    hands such a response over unchanged. *)
Lemma geomagnetic_panel_raises (max_str_len : Z) :
  DataFetcher.get_geomagnetic_index (serving (Ok null_k_index)) = Ok null_k_index /\
  geomagnetic_panel max_str_len null_k_index = Raise TypeError.
Proof. split; reflexivity. Qed.

Lemma geomagnetic_panel_storm :
  geomagnetic_panel 1000 (JList [JObj [("k_index", JStr "6.33")]])
    = (kp <- float_of_string "6.33" ;; Ok (KIndex kp "Storm" 6 3)).
Proof. vm_compute. reflexivity. Qed.

(** A block that runs to its end performs each of its calls in order. *)
Lemma run_calls_completed w n cs : forall st st',
  run_calls w n cs st = (st', None) -> st' = fold_left (step n) cs st.
Proof.
  induction cs as [|c cs IH]; intros st st' H; simpl in H.
  - injection H as <-. reflexivity.
  - destruct (w c) as [e|]; [discriminate|]. simpl. apply IH. exact H.
Qed.

Lemma effect_trace n c st : trace (effect n c st) = trace st.
Proof. destruct c; reflexivity. Qed.

(** The calls a block makes are a prefix of its statements, all of them
    when no call raises; each is logged with its outcome. *)
Lemma run_calls_trace w n cs : forall st st' r,
  run_calls w n cs st = (st', r) ->
  exists k,
    trace st' = trace st ++ map (fun c => Called n c (w c)) (firstn k cs) /\
    (r = None -> k = List.length cs).
Proof.
  induction cs as [|c cs IH]; intros st st' r H; simpl in H.
  - injection H as <- <-. exists 0%nat. simpl. rewrite app_nil_r. auto.
  - destruct (w c) as [e|] eqn:Hw.
    + injection H as <- <-. exists 1%nat. simpl. rewrite Hw.
      split; [reflexivity | discriminate].
    + apply IH in H. destruct H as (k & Hk & Hr).
      rewrite effect_trace in Hk. simpl in Hk.
      exists (S k). simpl. rewrite Hw, Hk, <- app_assoc.
      split; [reflexivity | intros E; f_equal; exact (Hr E)].
Qed.

(** A block that raises logs the raising call last. *)
Lemma run_calls_raised w n cs : forall st st' e,
  run_calls w n cs st = (st', Some e) ->
  exists c pre, trace st' = pre ++ [Called n c (Some e)] /\ w c = Some e.
Proof.
  induction cs as [|c cs IH]; intros st st' e H; simpl in H.
  - discriminate.
  - destruct (w c) as [e'|] eqn:Hw.
    + injection H as <- <-. exists c, (trace st). split; [reflexivity | exact Hw].
    + exact (IH _ _ _ H).
Qed.

(** An exception raised in the body of a cycle is reported and followed by
    the pause of 30; when the report and the pause run to their end the loop
    goes on with the next cycle. *)
Lemma exception_recovery (w : world) n st st1 e :
  run_calls (w n) n cycle_body st = (st1, Some e) ->
  is_Exception e = true ->
  w n (Print (ErrorUpdating e)) = None -> w n (Sleep 30) = None ->
  exists st2,
    cycle w n st = (st2, Continue) /\
    trace st2 = trace st1 ++ [Called n (Print (ErrorUpdating e)) None;
                              Called n (Sleep 30) None] /\
    forall fuel, loop (S fuel) w n st = loop fuel w (S n) st2.
Proof.
  intros Hb He Hp Hs.
  assert (Hc : cycle w n st = handle (w n) n (on_exception e) Continue st1).
  { unfold cycle. rewrite Hb. destruct e; try reflexivity. discriminate. }
  unfold handle, on_exception in Hc. cbn [run_calls] in Hc.
  rewrite Hp, Hs in Hc.
  eexists. split; [exact Hc|]. split.
  - simpl. rewrite <- app_assoc. reflexivity.
  - intros fuel. cbn [loop]. rewrite Hc. reflexivity.
Qed.

(** A user interrupt raised in the body of a cycle prints the closing
    message and leaves the loop. *)
Lemma interrupt_exit (w : world) n st st1 :
  run_calls (w n) n cycle_body st = (st1, Some KeyboardInterrupt) ->
  w n (Print DashboardClosed) = None ->
  exists st2,
    cycle w n st = (st2, Break) /\
    trace st2 = trace st1 ++ [Called n (Print DashboardClosed) None] /\
    forall fuel, loop (S fuel) w n st = (st2, Returned).
Proof.
  intros Hb Hp.
  assert (Hc : cycle w n st = handle (w n) n on_interrupt Break st1).
  { unfold cycle. rewrite Hb. reflexivity. }
  unfold handle, on_interrupt in Hc. cbn [run_calls] in Hc. rewrite Hp in Hc.
  eexists. split; [exact Hc|]. split; [reflexivity|].
  intros fuel. cbn [loop]. rewrite Hc. reflexivity.
Qed.

Lemma fold_step_trace n cs : forall st,
  trace (fold_left (step n) cs st) = trace st ++ map (fun c => Called n c None) cs.
Proof.
  induction cs as [|c cs IH]; intros st; simpl.
  - rewrite app_nil_r. reflexivity.
  - rewrite IH. unfold step. rewrite effect_trace. simpl.
    rewrite <- app_assoc. reflexivity.
Qed.

(** A cycle whose body runs to its end goes on with the next cycle after
    the pause of 180. *)
Lemma cycle_completed (w : world) n st st1 :
  run_calls (w n) n cycle_body st = (st1, None) ->
  cycle w n st = (st1, Continue) /\
  trace st1 = trace st ++ map (fun c => Called n c None) cycle_body.
Proof.
  intros Hb. split; [unfold cycle; rewrite Hb; reflexivity|].
  apply run_calls_completed in Hb. subst. apply fold_step_trace.
Qed.

(** An interrupt during the standard pause leaves the loop with the closing
    message. *)
Lemma interrupt_during_pause_clean (fuel : nat) :
  snd (main interrupted_pause (S fuel)) = Returned /\
  last (trace (fst (main interrupted_pause (S fuel)))) (Called 0 (Sleep 0) None)
    = Called 1 (Print DashboardClosed) None.
Proof. split; reflexivity. Qed.

(** C2 fails on the code: when a cycle has raised an exception and the user
    interrupts during the recovery pause of 30, the interrupt is raised
    inside the handler, where no clause catches it; it leaves [main]
    uncaught and the closing message is never printed. *)
Theorem interrupt_during_recovery_not_clean (fuel : nat) :
  snd (main interrupted_recovery (S fuel)) = Uncaught KeyboardInterrupt /\
  last (trace (fst (main interrupted_recovery (S fuel)))) (Called 0 (Sleep 0) None)
    = Called 1 (Sleep 30) (Some KeyboardInterrupt) /\
  ~ In (Print DashboardClosed)
       (map ev_call (trace (fst (main interrupted_recovery (S fuel))))).
Proof.
  split; [reflexivity|]. split; [reflexivity|].
  intros H. vm_compute in H.
  repeat (destruct H as [H|H]; [discriminate H|]). exact H.
Qed.

(** *** Frames *)

(** C10, as stated, fails: when a panel function raises part-way through
    the updates, the panels already replaced stay in the layout; the frame
    on screen during the recovery pause mixes the second cycle's wind panel
    with the first cycle's other panels. *)
Lemma half_updated_frame :
  let frame := nth 1 (frames (fst (main failing_update 2))) (fun _ => None) in
  List.length (frames (fst (main failing_update 2))) = 2%nat /\
  frame solar_wind = Some 2%nat /\
  frame geomagnetic = Some 1%nat /\
  ~ uniform frame.
Proof.
  intros frame.
  assert (H1 : frame solar_wind = Some 2%nat) by (vm_compute; reflexivity).
  assert (H2 : frame geomagnetic = Some 1%nat) by (vm_compute; reflexivity).
  split; [vm_compute; reflexivity|]. split; [exact H1|]. split; [exact H2|].
  intros [n Hn].
  pose proof (Hn solar_wind (or_introl eq_refl)) as H3.
  pose proof (Hn geomagnetic (or_intror (or_introl eq_refl))) as H4.
  congruence.
Qed.

(** C10, amended: in every cycle the eight fetches come before the first
    panel update, and the panels are then computed and put into the
    displayed layout one after the other, in a fixed order; when the body of
    the cycle runs to its end, all eight panels and the footer are from that
    cycle, and so is the frame on screen during the standard pause. *)
Theorem panels_installed_in_sequence (w : world) (n : nat) (st st' : state)
  (r : option pyexc)
  (H : run_calls (w n) n cycle_body st = (st', r)) :
  cycle_body = map Fetch all_feeds ++ map Update (content_regions ++ [footer])
                 ++ [Sleep 180] /\
  (exists k,
     map ev_call (skipn (List.length (trace st)) (trace st')) = firstn k cycle_body) /\
  (r = None ->
     (forall reg, In reg (content_regions ++ [footer]) -> shown st' reg = Some n) /\
     frames st' = frames st ++ [shown st'] /\
     uniform (shown st')).
Proof.
  split; [reflexivity|]. split.
  - destruct (run_calls_trace _ _ _ _ H) as (k & Hk & _).
    exists k. rewrite Hk, skipn_app, skipn_all, Nat.sub_diag. simpl.
    rewrite map_map. simpl. apply map_id.
  - intros ->. apply run_calls_completed in H. subst st'.
    assert (Hall : forall reg, In reg (content_regions ++ [footer]) ->
              shown (fold_left (step n) cycle_body st) reg = Some n).
    { intros reg Hin. simpl in Hin.
      repeat (destruct Hin as [<-|Hin]; [reflexivity|]). contradiction. }
    split; [exact Hall|]. split; [reflexivity|].
    exists n. intros reg Hin. apply Hall. apply in_or_app. left. exact Hin.
Qed.

Lemma panels_installed_in_sequence_witness :
  uniform (shown (fst (run_calls (failing_update 1%nat) 1%nat cycle_body initial))).
Proof.
  exact (proj2 (proj2 (proj2 (proj2
           (@panels_installed_in_sequence failing_update 1%nat initial
              (fst (run_calls (failing_update 1%nat) 1%nat cycle_body initial))
              (snd (run_calls (failing_update 1%nat) 1%nat cycle_body initial))
              eq_refl)) eq_refl))).
Defined.

End DashboardSpec.

(** * Further properties *)

(** ** The fetcher: failures, falsy bodies and the shape of the results *)

Module FetcherExtra.

Import DataFetcher Reference FetcherSpec.

(** X1: when the transport fails with a [RequestException] on every
    request, each of the eight operations returns the unavailable value and
    none raises. *)
Theorem transport_failure_unavailable (self : t) (start_date end_date : string)
  (H : forall url params, session self url params = Raise RequestException) :
  get_cme_events self start_date end_date = Ok JNull /\
  get_solar_flares self start_date end_date = Ok JNull /\
  get_geomagnetic_storms self start_date end_date = Ok JNull /\
  get_space_weather_alerts self = Ok JNull /\
  get_solar_wind_data self = Ok JNull /\
  get_sunspot_data self = Ok JNull /\
  get_geomagnetic_index self = Ok JNull /\
  get_solar_flux self = Ok JNull.
Proof.
  unfold get_cme_events, get_solar_flares, get_geomagnetic_storms,
    get_space_weather_alerts, get_solar_wind_data, get_sunspot_data,
    get_geomagnetic_index, get_solar_flux.
  rewrite !make_request_failure by apply H.
  repeat split; reflexivity.
Qed.

Lemma transport_failure_unavailable_witness :
  get_cme_events (serving (Raise RequestException)) "2024-01-01" "2024-01-08" = Ok JNull /\
  get_solar_wind_data (serving (Raise RequestException)) = Ok JNull.
Proof.
  destruct (@transport_failure_unavailable (serving (Raise RequestException))
              "2024-01-01" "2024-01-08" (fun _ _ => eq_refl))
    as (Hc & _ & _ & _ & Hw & _).
  split; [exact Hc | exact Hw].
Defined.

Lemma make_request_propagates (self : t) url params e :
  is_RequestException e = false ->
  session self url params = Raise e -> _make_request self url params = Raise e.
Proof. intros He H. unfold _make_request. rewrite H, He. reflexivity. Qed.

(** X2: an exception of the transport that is no [RequestException], a
    [KeyboardInterrupt] during the request for instance, is not swallowed:
    each of the eight operations raises it to the caller. *)
Theorem other_exceptions_propagate (self : t) (start_date end_date : string)
  (e : pyexc) (He : is_RequestException e = false)
  (H : forall url params, session self url params = Raise e) :
  get_cme_events self start_date end_date = Raise e /\
  get_solar_flares self start_date end_date = Raise e /\
  get_geomagnetic_storms self start_date end_date = Raise e /\
  get_space_weather_alerts self = Raise e /\
  get_solar_wind_data self = Raise e /\
  get_sunspot_data self = Raise e /\
  get_geomagnetic_index self = Raise e /\
  get_solar_flux self = Raise e.
Proof.
  unfold get_cme_events, get_solar_flares, get_geomagnetic_storms,
    get_space_weather_alerts, get_solar_wind_data, get_sunspot_data,
    get_geomagnetic_index, get_solar_flux.
  rewrite !(@make_request_propagates self _ _ e He) by apply H.
  repeat split; reflexivity.
Qed.

Lemma other_exceptions_propagate_witness :
  get_solar_flux (serving (Raise KeyboardInterrupt)) = Raise KeyboardInterrupt /\
  get_space_weather_alerts (serving (Raise KeyboardInterrupt)) = Raise KeyboardInterrupt.
Proof.
  destruct (@other_exceptions_propagate (serving (Raise KeyboardInterrupt))
              "2024-01-01" "2024-01-08" KeyboardInterrupt eq_refl (fun _ _ => eq_refl))
    as (_ & _ & _ & Ha & _ & _ & _ & Hf).
  split; [exact Hf | exact Ha].
Defined.

(** X3: a falsy response body (null, false, 0, the empty string, list or
    object) makes the four NASA operations and the three windowed NOAA
    operations return the unavailable value; the sunspot operation returns
    the body itself. *)
Theorem falsy_response_unavailable (self : t) (start_date end_date : string)
  (data : json) (Hf : truthy data = false)
  (H : forall url params, session self url params = Ok data) :
  get_cme_events self start_date end_date = Ok JNull /\
  get_solar_flares self start_date end_date = Ok JNull /\
  get_geomagnetic_storms self start_date end_date = Ok JNull /\
  get_space_weather_alerts self = Ok JNull /\
  get_solar_wind_data self = Ok JNull /\
  get_geomagnetic_index self = Ok JNull /\
  get_solar_flux self = Ok JNull /\
  get_sunspot_data self = Ok data.
Proof.
  unfold get_cme_events, get_solar_flares, get_geomagnetic_storms,
    get_space_weather_alerts, get_solar_wind_data, get_sunspot_data,
    get_geomagnetic_index, get_solar_flux.
  rewrite !(@make_request_ok self _ _ data) by apply H.
  cbn [bind]. rewrite Hf. cbn [negb].
  repeat split; try reflexivity.
  - destruct data as [| | | | |l|]; try reflexivity.
    destruct l; [reflexivity | discriminate].
  - destruct data; reflexivity.
  - destruct data; reflexivity.
Qed.

Lemma falsy_response_unavailable_witness :
  get_geomagnetic_storms (serving (Ok (JObj []))) "2024-01-01" "2024-01-08" = Ok JNull /\
  get_sunspot_data (serving (Ok (JObj []))) = Ok (JObj []).
Proof.
  destruct (@falsy_response_unavailable (serving (Ok (JObj [])))
              "2024-01-01" "2024-01-08" (JObj []) eq_refl (fun _ _ => eq_refl))
    as (_ & _ & Hs & _ & _ & _ & _ & Hp).
  split; [exact Hs | exact Hp].
Defined.

(** *** When an event operation returns *)

Lemma mapM_ok_Forall {A B : Type} (P : A -> Prop) (f : A -> result B) l bs :
  (forall x b, f x = Ok b -> P x) -> mapM f l = Ok bs -> Forall P l.
Proof.
  intros HP. revert bs. induction l as [|a l IH]; intros bs H; [constructor|].
  simpl in H. destruct (f a) as [b|e] eqn:Ha; [|discriminate].
  cbn [bind] in H. destruct (mapM f l) as [bs'|e]; [|discriminate].
  constructor; [exact (HP _ _ Ha) | exact (IH _ eq_refl)].
Qed.


Lemma first_five_iff (rec : json -> result json) (ev : json -> json) (P : json -> Prop) :
  (forall x, P x -> rec x = Ok (ev x)) ->
  (forall x r, rec x = Ok r -> P x) ->
  (forall x, P x -> is_dict x) ->
  forall data v,
    first_five rec data = Ok v <->
    (truthy data = false /\ v = JNull) \/
    (exists l, data = JList l /\ l <> [] /\ Forall P l /\
               v = JList (firstn 5 (map ev l))).
Proof.
  intros Hok Hinv Hdict data v. unfold first_five. split.
  - destruct (truthy data) eqn:Ht; cbn [negb].
    2: { intros [= <-]. left. split; reflexivity. }
    intros H. right.
    assert (Hhead : forall x xs, mapM rec (x :: xs) = Raise AttributeError \/ is_dict x \/
                                 exists e, mapM rec (x :: xs) = Raise e).
    { intros x xs. simpl. destruct (rec x) as [r|e] eqn:Hx.
      - right. left. exact (Hdict _ (Hinv _ _ Hx)).
      - right. right. exists e. reflexivity. }
    destruct data as [| | | |s|l|items]; try discriminate.
    + destruct s as [|c s]; [discriminate|]. cbn [py_iter bind] in H.
      simpl list_ascii_of_string in H. simpl map in H.
      destruct (Hhead (JStr (String c "")) (map (fun c0 => JStr (String c0 "")) (list_ascii_of_string s)))
        as [E|[E|[e E]]]; try contradiction; rewrite E in H; discriminate.
    + cbn [py_iter bind] in H.
      destruct (mapM rec l) as [rs|e] eqn:Hm; [|discriminate].
      cbn [bind] in H. injection H as <-.
      assert (HP : Forall P l) by exact (mapM_ok_Forall P rec l Hinv Hm).
      rewrite (mapM_Forall rec ev Hok HP) in Hm. injection Hm as <-.
      exists l. split; [reflexivity|]. split; [|split; [exact HP | reflexivity]].
      intros ->. discriminate.
    + destruct items as [|[k x] items]; [discriminate|]. cbn [py_iter bind] in H.
      simpl map in H.
      destruct (Hhead (JStr k) (map (fun kv : string * json => JStr (fst kv)) items))
        as [E|[E|[e E]]]; try contradiction; rewrite E in H; discriminate.
  - intros [[Ht ->]|(l & -> & Hne & HP & ->)].
    + rewrite Ht. reflexivity.
    + destruct l as [|x l]; [contradiction|]. cbn [truthy negb py_iter bind].
      rewrite (mapM_Forall rec ev Hok HP). reflexivity.
Qed.

Lemma cme_record_inv e r : cme_record e = Ok r -> is_dict e.
Proof. destruct e; simpl; intros H; try discriminate. exact I. Qed.

Lemma flare_record_inv f r : flare_record f = Ok r -> is_dict f.
Proof. destruct f; simpl; intros H; try discriminate. exact I. Qed.

(** X4: the CME and the flare operation return exactly in two cases: the
    unavailable value for a falsy body, and the first five records for a
    non-empty list all of whose elements are objects (also those beyond the
    fifth).  For every other body they raise, and they never return an empty
    list. *)
Theorem cme_and_flares_return_iff (self : t) (start_date end_date : string)
  (cdata fdata : json)
  (Hc : session self (nasa_base self ++ "CME") (date_params self start_date end_date)
          = Ok cdata)
  (Hf : session self (nasa_base self ++ "FLR") (date_params self start_date end_date)
          = Ok fdata) :
  (forall v, get_cme_events self start_date end_date = Ok v <->
     (truthy cdata = false /\ v = JNull) \/
     (exists l, cdata = JList l /\ l <> [] /\ Forall is_dict l /\
                v = JList (firstn 5 (map cme_event l)))) /\
  (forall v, get_solar_flares self start_date end_date = Ok v <->
     (truthy fdata = false /\ v = JNull) \/
     (exists l, fdata = JList l /\ l <> [] /\ Forall is_dict l /\
                v = JList (firstn 5 (map flare_event l)))) /\
  get_cme_events self start_date end_date <> Ok (JList []) /\
  get_solar_flares self start_date end_date <> Ok (JList []).
Proof.
  assert (Ec : get_cme_events self start_date end_date = first_five cme_record cdata).
  { unfold get_cme_events. rewrite (make_request_ok _ _ _ Hc). reflexivity. }
  assert (Ef : get_solar_flares self start_date end_date = first_five flare_record fdata).
  { unfold get_solar_flares. rewrite (make_request_ok _ _ _ Hf). reflexivity. }
  rewrite Ec, Ef.
  pose proof (first_five_iff cme_record cme_event is_dict cme_record_ok
                cme_record_inv (fun x H => H)) as Ic.
  pose proof (first_five_iff flare_record flare_event is_dict flare_record_ok
                flare_record_inv (fun x H => H)) as If.
  split; [exact (Ic cdata)|]. split; [exact (If fdata)|]. split.
  - intros H. apply Ic in H. destruct H as [[_ H]|(l & _ & Hne & _ & H)]; [discriminate|].
    destruct l; [contradiction | discriminate].
  - intros H. apply If in H. destruct H as [[_ H]|(l & _ & Hne & _ & H)]; [discriminate|].
    destruct l; [contradiction | discriminate].
Qed.

Lemma cme_and_flares_return_iff_witness :
  get_cme_events (serving (Ok (JList [JObj [("link", JStr "u")]]))) "2024-01-01" "2024-01-08"
    = Ok (JList (firstn 5 (map cme_event [JObj [("link", JStr "u")]]))).
Proof.
  destruct (@cme_and_flares_return_iff
              (serving (Ok (JList [JObj [("link", JStr "u")]])))
              "2024-01-01" "2024-01-08" _ _ eq_refl eq_refl) as (Hc & _).
  apply Hc. right. exists [JObj [("link", JStr "u")]].
  split; [reflexivity|]. split; [discriminate|].
  split; [repeat constructor | reflexivity].
Defined.

(** A list whose sixth element is no object makes the CME operation raise,
    although only five records would be kept. *)
Lemma cme_sixth_element_raises :
  get_cme_events (serving (Ok (JList [JObj []; JObj []; JObj []; JObj []; JObj []; JInt 6])))
    "2024-01-01" "2024-01-08" = Raise AttributeError.
Proof. reflexivity. Qed.

Lemma storm_record_inv s r : storm_record s = Ok r -> storm_ok s.
Proof.
  destruct s as [| | | | | |items]; try discriminate.
  unfold storm_record, storm_kp_index, storm_ok, field.
  cbn [py_get py_getitem bind is_dict].
  destruct (assoc "allKpIndex" items) as [v|]; [|intros _; split; [exact I | reflexivity]].
  destruct (truthy v) eqn:Ht.
  - cbn [bind]. intros H. split; [exact I|].
    destruct v as [| | | |s|l|kv]; try discriminate.
    + destruct s; discriminate.
    + destruct l as [|first l]; [discriminate|].
      destruct first; try discriminate. exact I.
  - intros _. split; [exact I|].
    destruct v as [| | | | |l|]; try exact Ht.
    destruct l; [reflexivity | discriminate].
Qed.

(** X5: the storm operation returns exactly in two cases: the unavailable
    value for a falsy body, and the first five records for a non-empty list
    of objects in each of which the nested [allKpIndex] value is falsy or a
    list that starts with an object.  A truthy nested value of another kind
    makes it raise. *)
Theorem storms_return_iff (self : t) (start_date end_date : string) (data : json)
  (H : session self (nasa_base self ++ "GST") (date_params self start_date end_date)
         = Ok data) :
  forall v, get_geomagnetic_storms self start_date end_date = Ok v <->
    (truthy data = false /\ v = JNull) \/
    (exists l, data = JList l /\ l <> [] /\ Forall storm_ok l /\
               v = JList (firstn 5 (map storm_event l))).
Proof.
  assert (E : get_geomagnetic_storms self start_date end_date = first_five storm_record data).
  { unfold get_geomagnetic_storms. rewrite (make_request_ok _ _ _ H). reflexivity. }
  rewrite E.
  exact (first_five_iff storm_record storm_event storm_ok storm_record_ok
           storm_record_inv (fun x Hx => proj1 Hx) data).
Qed.

Lemma storms_return_iff_witness :
  get_geomagnetic_storms
    (serving (Ok (JList [JObj [("allKpIndex", JList [JObj [("kpIndex", JInt 5)]])]])))
    "2024-01-01" "2024-01-08"
  = Ok (JList [JObj [("startTime", JNull); ("kpIndex", JInt 5); ("link", JStr "")]]).
Proof.
  apply (@storms_return_iff
           (serving (Ok (JList [JObj [("allKpIndex", JList [JObj [("kpIndex", JInt 5)]])]])))
           "2024-01-01" "2024-01-08" _ eq_refl).
  right. eexists. split; [reflexivity|]. split; [discriminate|].
  split; [|reflexivity]. repeat constructor.
Defined.

(** A nested value that is text makes the storm operation raise. *)
Lemma storm_text_kp_raises :
  get_geomagnetic_storms (serving (Ok (JList [JObj [("allKpIndex", JStr "5")]])))
    "2024-01-01" "2024-01-08" = Raise AttributeError.
Proof. reflexivity. Qed.

Lemma alert_record_inv a r : alert_record a = Ok r -> alert_ok a.
Proof.
  destruct a as [| | | | | |items]; try discriminate.
  unfold alert_record, alert_body, alert_ok, field. cbn [py_get bind is_dict].
  destruct (match assoc "messageBody" items with Some x => x | None => JStr "" end)
    as [| | | |b|l|kv]; try discriminate.
  - intros _. split; [exact I|]. exists b. reflexivity.
Qed.

(** X6: the alerts operation looks at the first five elements only.  It
    returns exactly in two cases: the unavailable value for a falsy body,
    and one record per element for a non-empty list whose first five
    elements are objects with a textual (or no) body; what follows the fifth
    element cannot make it raise. *)
Theorem alerts_return_iff (self : t) (data : json)
  (H : session self (nasa_base self ++ "notifications")
         (Some [("type", "all"); ("api_key", nasa_api_key self)]) = Ok data) :
  forall v, get_space_weather_alerts self = Ok v <->
    (truthy data = false /\ v = JNull) \/
    (exists l, data = JList l /\ l <> [] /\ Forall alert_ok (firstn 5 l) /\
               v = JList (map alert_event (firstn 5 l))).
Proof.
  intros v. unfold get_space_weather_alerts. rewrite (make_request_ok _ _ _ H).
  cbn [bind]. split.
  - destruct (truthy data) eqn:Ht; cbn [negb].
    2: { intros [= <-]. left. split; reflexivity. }
    intros Hv. right.
    destruct data as [| | | |s|l|items]; try discriminate.
    + destruct s as [|c s]; [discriminate|]. discriminate.
    + cbn [py_slice_to bind py_iter] in Hv.
      destruct (mapM alert_record (firstn 5 l)) as [rs|e] eqn:Hm; [|discriminate].
      cbn [bind] in Hv. injection Hv as <-.
      assert (HP : Forall alert_ok (firstn 5 l))
        by exact (mapM_ok_Forall alert_ok alert_record (firstn 5 l) alert_record_inv Hm).
      rewrite (mapM_Forall alert_record alert_event alert_record_ok HP) in Hm.
      injection Hm as <-.
      exists l. split; [reflexivity|]. split; [|split; [exact HP | reflexivity]].
      intros ->. discriminate.
  - intros [[Ht ->]|(l & -> & Hne & HP & ->)].
    + rewrite Ht. reflexivity.
    + destruct l as [|x l]; [contradiction|].
      cbn [truthy negb py_slice_to bind py_iter].
      rewrite (mapM_Forall alert_record alert_event alert_record_ok HP). reflexivity.
Qed.

Lemma alerts_return_iff_witness :
  get_space_weather_alerts
    (serving (Ok (JList [JObj []; JObj []; JObj []; JObj []; JObj []; JInt 6])))
  = Ok (JList (map alert_event [JObj []; JObj []; JObj []; JObj []; JObj []])).
Proof.
  apply (@alerts_return_iff
           (serving (Ok (JList [JObj []; JObj []; JObj []; JObj []; JObj []; JInt 6])))
           _ eq_refl).
  right. eexists. split; [reflexivity|]. split; [discriminate|].
  split; [|reflexivity]. repeat constructor; exists ""; reflexivity.
Defined.

Lemma py_last_nonempty {A : Type} (n : nat) (l : list A) :
  l <> [] -> (0 < n)%nat -> py_last n l <> [].
Proof.
  intros Hl Hn E. apply (f_equal (@List.length A)) in E.
  rewrite py_last_length in E. destruct l; [contradiction|]. simpl in E. lia.
Qed.

(** X7: whatever JSON value the transport delivers, the four NOAA
    operations return and do not raise: the wind operation gives the
    unavailable value or a non-empty list of at most 60 samples, the K-index
    and flux operations the unavailable value or a non-empty list of at most
    20, respectively 5, elements, and the sunspot operation the body
    itself. *)
Theorem noaa_operations_return (self : t) (wdata sdata kdata fdata : json)
  (Hw : session self (noaa_base self ++ "json/rtsw/rtsw_wind_1m.json") None = Ok wdata)
  (Hs : session self (noaa_base self ++ "json/sunspot_report.json") None = Ok sdata)
  (Hk : session self (noaa_base self ++ "json/planetary_k_index_1m.json") None = Ok kdata)
  (Hf : session self (noaa_base self ++ "json/f10_7cm.json") None = Ok fdata) :
  (get_solar_wind_data self = Ok JNull \/
   exists l, get_solar_wind_data self = Ok (JList l) /\
             l <> [] /\ (List.length l <= 60)%nat) /\
  get_sunspot_data self = Ok sdata /\
  (get_geomagnetic_index self = Ok JNull \/
   exists l, get_geomagnetic_index self = Ok (JList l) /\
             l <> [] /\ (List.length l <= 20)%nat) /\
  (get_solar_flux self = Ok JNull \/
   exists l, get_solar_flux self = Ok (JList l) /\
             l <> [] /\ (List.length l <= 5)%nat).
Proof.
  unfold get_solar_wind_data, get_sunspot_data, get_geomagnetic_index, get_solar_flux.
  rewrite (make_request_ok _ _ _ Hw), (make_request_ok _ _ _ Hs),
    (make_request_ok _ _ _ Hk), (make_request_ok _ _ _ Hf).
  cbn [bind]. split; [|split; [reflexivity|split]].
  - destruct wdata as [| | | | |l|]; try (left; reflexivity).
    rewrite wind_loop_qualifying. cbn [bind].
    destruct (qualifying l) as [|q qs] eqn:Hq; [left; reflexivity|].
    right. exists (py_last 60 (q :: qs)). split; [reflexivity|].
    split; [apply py_last_nonempty; [discriminate | lia]|].
    rewrite py_last_length. lia.
  - destruct kdata as [| | | | |l|]; try (left; reflexivity).
    destruct l as [|x l]; [left; reflexivity|].
    right. exists (py_last 20 (x :: l)). split; [reflexivity|].
    split; [apply py_last_nonempty; [discriminate | lia]|].
    rewrite py_last_length. lia.
  - destruct fdata as [| | | | |l|]; try (left; reflexivity).
    destruct l as [|x l]; [left; reflexivity|].
    right. exists (py_last 5 (x :: l)). split; [reflexivity|].
    split; [apply py_last_nonempty; [discriminate | lia]|].
    rewrite py_last_length. lia.
Qed.

Lemma noaa_operations_return_witness :
  get_sunspot_data (serving (Ok (JStr "maintenance"))) = Ok (JStr "maintenance").
Proof.
  exact (proj1 (proj2 (@noaa_operations_return (serving (Ok (JStr "maintenance")))
                         _ _ _ _ eq_refl eq_refl eq_refl eq_refl))).
Defined.

End FetcherExtra.

(** ** The sparkline and the wind plot: further properties *)

Module PlotterExtra.

Import Plotter Reference PlotterSpec.

Lemma py_min_In xs : forall x, In (py_min x xs) (x :: xs).
Proof.
  induction xs as [|v xs IH]; intros x; [left; reflexivity|].
  unfold py_min. cbn [fold_left].
  destruct (IH (if f_lt v x then v else x)) as [E|Hin].
  - unfold py_min in E. rewrite <- E. destruct (f_lt v x); [right; left | left]; reflexivity.
  - right. right. exact Hin.
Qed.

Lemma py_max_In xs : forall x, In (py_max x xs) (x :: xs).
Proof.
  induction xs as [|v xs IH]; intros x; [left; reflexivity|].
  unfold py_max. cbn [fold_left].
  destruct (IH (if f_gt v x then v else x)) as [E|Hin].
  - unfold py_max in E. rewrite <- E. destruct (f_gt v x); [right; left | left]; reflexivity.
  - right. right. exact Hin.
Qed.

Lemma mapM_spark_repeat (n : nat) :
  mapM spark_char (repeat 4%Z n) = Ok (repeat 0x2585%N n).
Proof.
  induction n as [|n IH]; [reflexivity|].
  cbn [repeat mapM]. rewrite IH. reflexivity.
Qed.

(** X8: a series all of whose values are equal is drawn with the middle
    glyph (level 4, U+2585) at every position. *)
Theorem flat_series_middle_glyph (values : list pyfloat) (c : pyfloat)
  (Hne : values <> [])
  (Hall : Forall (fun v => f_eq v c = true) values) :
  _normalize values levels = Ok (repeat 4%Z (List.length values)) /\
  sparkline values = Ok (repeat 0x2585%N (List.length values)).
Proof.
  destruct values as [|v0 vs]; [contradiction|].
  assert (Hn : _normalize (v0 :: vs) levels = Ok (repeat 4%Z (List.length (v0 :: vs)))).
  { unfold _normalize.
    rewrite Forall_forall in Hall.
    pose proof (Hall _ (py_min_In vs v0)) as Hlo.
    pose proof (Hall _ (py_max_In vs v0)) as Hhi.
    rewrite (f_eq_trans_r _ _ _ Hhi Hlo). reflexivity. }
  split; [exact Hn|].
  unfold sparkline. rewrite Hn. cbn [bind]. apply mapM_spark_repeat.
Qed.

Lemma flat_series_middle_glyph_witness :
  sparkline [f_of_Z 0; S754_zero true; f_of_Z 0] = Ok [0x2585; 0x2585; 0x2585]%N /\
  sparkline [f_of_Z 400; f_of_Z 400] = Ok [0x2585; 0x2585]%N.
Proof.
  split.
  - assert (Hne : [f_of_Z 0; S754_zero true; f_of_Z 0] <> []) by discriminate.
    assert (Hall : Forall (fun v => f_eq v (f_of_Z 0) = true)
                     [f_of_Z 0; S754_zero true; f_of_Z 0]).
    { repeat constructor. }
    exact (proj2 (@flat_series_middle_glyph _ (f_of_Z 0) Hne Hall)).
  - assert (Hne : [f_of_Z 400; f_of_Z 400] <> []) by discriminate.
    assert (Hall : Forall (fun v => f_eq v (f_of_Z 400) = true)
                     [f_of_Z 400; f_of_Z 400]).
    { repeat constructor; vm_compute; reflexivity. }
    exact (proj2 (@flat_series_middle_glyph _ (f_of_Z 400) Hne Hall)).
Defined.

(** The minimum is the first value or below it, and no value of the list
    is below the minimum. *)
Lemma py_min_least xs : forall x,
  (py_min x xs = x \/ f_lt (py_min x xs) x = true) /\
  (forall v, In v xs -> f_lt v (py_min x xs) = false).
Proof.
  induction xs as [|v xs IH]; intros x.
  - split; [left; reflexivity | intros v []].
  - unfold py_min. cbn [fold_left].
    fold (py_min (if f_lt v x then v else x) xs).
    destruct (IH (if f_lt v x then v else x)) as [Hr Hall].
    remember (py_min (if f_lt v x then v else x) xs) as r eqn:Er. clear Er.
    destruct (f_lt v x) eqn:Hvx.
    + split.
      * right. destruct Hr as [E|Hr];
          [rewrite E; exact Hvx | exact (f_lt_trans _ _ _ Hr Hvx)].
      * intros u [E|Hu]; [subst u|exact (Hall _ Hu)].
        destruct Hr as [E|Hr];
          [rewrite E; apply f_lt_irrefl | exact (f_lt_asym _ _ Hr)].
    + split; [exact Hr|].
      intros u [E|Hu]; [subst u|exact (Hall _ Hu)].
      destruct Hr as [E|Hr]; [rewrite E; exact Hvx|].
      destruct (f_lt v r) eqn:Hur; [|reflexivity].
      rewrite (f_lt_trans _ _ _ Hur Hr) in Hvx. discriminate.
Qed.

(** The maximum is the first value or above it, and no value of the list
    is above the maximum. *)
Lemma py_max_greatest xs : forall x,
  (py_max x xs = x \/ f_gt (py_max x xs) x = true) /\
  (forall v, In v xs -> f_gt v (py_max x xs) = false).
Proof.
  induction xs as [|v xs IH]; intros x.
  - split; [left; reflexivity | intros v []].
  - unfold py_max. cbn [fold_left].
    fold (py_max (if f_gt v x then v else x) xs).
    destruct (IH (if f_gt v x then v else x)) as [Hr Hall].
    remember (py_max (if f_gt v x then v else x) xs) as r eqn:Er. clear Er.
    unfold f_gt in *.
    destruct (f_lt x v) eqn:Hvx.
    + split.
      * right. destruct Hr as [E|Hr];
          [rewrite E; exact Hvx | exact (f_lt_trans _ _ _ Hvx Hr)].
      * intros u [E|Hu]; [subst u|exact (Hall _ Hu)].
        destruct Hr as [E|Hr];
          [rewrite E; apply f_lt_irrefl | exact (f_lt_asym _ _ Hr)].
    + split; [exact Hr|].
      intros u [E|Hu]; [subst u|exact (Hall _ Hu)].
      destruct Hr as [E|Hr]; [rewrite E; exact Hvx|].
      destruct (f_lt r v) eqn:Hur; [|reflexivity].
      rewrite (f_lt_trans _ _ _ Hr Hur) in Hvx. discriminate.
Qed.

(** No value of a series is below its minimum or above its maximum. *)
Lemma extremes_bound (x : pyfloat) (xs : list pyfloat) (v : pyfloat) :
  In v (x :: xs) ->
  f_lt v (py_min x xs) = false /\ f_gt v (py_max x xs) = false.
Proof.
  destruct (py_min_least xs x) as [Hlo Hlos].
  destruct (py_max_greatest xs x) as [Hhi His].
  intros [E|Hv]; [subst v|split; [apply Hlos, Hv | apply His, Hv]].
  split.
  - destruct Hlo as [E|Hlo]; [rewrite E; apply f_lt_irrefl | exact (f_lt_asym _ _ Hlo)].
  - unfold f_gt in *.
    destruct Hhi as [E|Hhi]; [rewrite E; apply f_lt_irrefl | exact (f_lt_asym _ _ Hhi)].
Qed.

Section WindPlotExtra.

Variable strptime_hm : string -> string -> option string.

Lemma py_last_window {A : Type} (n : nat) (l : list A) :
  py_last n (py_last n l) = py_last n l.
Proof. apply py_last_short. rewrite py_last_length. lia. Qed.

(** X10: the plot depends on the last 30 entries of the wind data only. *)
Theorem plot_uses_last_thirty (l : list json) :
  create_wind_speed_plot strptime_hm (JList l)
    = create_wind_speed_plot strptime_hm (JList (py_last 30 l)).
Proof.
  destruct l as [|x l]; [reflexivity|].
  pose proof (@py_last_window json 30 (x :: l)) as Hw.
  assert (Hne : py_last 30 (x :: l) <> []) by (apply FetcherExtra.py_last_nonempty; [discriminate | lia]).
  unfold create_wind_speed_plot at 1. cbn [truthy negb].
  destruct (py_last 30 (x :: l)) as [|y ys]; [contradiction|].
  unfold create_wind_speed_plot. cbn [truthy negb]. rewrite Hw. reflexivity.
Qed.

(** The loop only appends to its two lists, a speed never without a
    label. *)
Lemma collect_grows recent : forall times speeds ts ss,
  collect strptime_hm recent times speeds = Ok (ts, ss) ->
  exists ts' ss',
    ts = times ++ ts' /\ ss = speeds ++ ss' /\
    (List.length ss' <= List.length ts')%nat /\
    (List.length ts' <= List.length recent)%nat.
Proof.
  induction recent as [|entry recent IH]; intros times speeds ts ss H.
  - injection H as <- <-. exists [], []. rewrite !app_nil_r. simpl. auto.
  - cbn [collect] in H.
    destruct (py_get entry "time_tag" JNull) as [time_tag|e]; [|discriminate].
    cbn [bind] in H.
    destruct (py_get entry "speed" JNull) as [speed|e]; [|discriminate].
    cbn [bind] in H.
    destruct (negb (truthy time_tag) || is_None speed).
    + destruct (IH _ _ _ _ H) as (ts' & ss' & -> & -> & H1 & H2).
      exists ts', ss'. simpl. auto.
    + destruct (time_label strptime_hm time_tag) as [label|e]; [|discriminate].
      cbn [bind] in H.
      assert (Hcase : collect strptime_hm recent (times ++ [label]) speeds = Ok (ts, ss) \/
                      exists x, collect strptime_hm recent (times ++ [label]) (speeds ++ [x])
                                = Ok (ts, ss)).
      { destruct (py_float speed) as [x|e]; [right; exists x; exact H|].
        destruct e; try discriminate; left; exact H. }
      destruct Hcase as [Hc|[x Hc]].
      * destruct (IH _ _ _ _ Hc) as (ts' & ss' & -> & -> & H1 & H2).
        exists (label :: ts'), ss'. rewrite <- app_assoc. simpl.
        split; [reflexivity|]. split; [reflexivity|]. lia.
      * destruct (IH _ _ _ _ Hc) as (ts' & ss' & -> & -> & H1 & H2).
        exists (label :: ts'), (x :: ss'). rewrite <- !app_assoc. simpl.
        split; [reflexivity|]. split; [reflexivity|]. lia.
Qed.

(** X11: when the wind data is not empty but no entry among the last 30 has
    both a truthy time tag and a speed, the plot is the "no valid data"
    message. *)
Theorem plot_without_valid_entries (l : list json)
  (Hne : l <> [])
  (H : Forall (fun e => is_dict e /\
                        (truthy (field "time_tag" JNull e) = false \/
                         field "speed" JNull e = JNull))
         (py_last 30 l)) :
  create_wind_speed_plot strptime_hm (JList l) = Ok NoValidData.
Proof.
  assert (Hc : forall recent times speeds,
             Forall (fun e => is_dict e /\
                              (truthy (field "time_tag" JNull e) = false \/
                               field "speed" JNull e = JNull)) recent ->
             collect strptime_hm recent times speeds = Ok (times, speeds)).
  { induction recent as [|e recent IH]; intros times speeds HF; [reflexivity|].
    inversion HF as [|e' r' [Hd Hskip] HF']; subst.
    cbn [collect]. rewrite !(FetcherSpec.py_get_field _ _ _ Hd). cbn [bind].
    assert (E : negb (truthy (field "time_tag" JNull e)) || is_None (field "speed" JNull e) = true).
    { destruct Hskip as [-> | ->]; [reflexivity | apply orb_true_r]. }
    rewrite E. apply IH, HF'. }
  destruct l as [|x l]; [contradiction|].
  unfold create_wind_speed_plot. cbn [truthy negb].
  rewrite (Hc _ [] [] H). reflexivity.
Qed.

(** X12: when the sparkline of the plotted speeds is drawn, the chart has
    one glyph per speed and at most 30 of them; its minimum, maximum and
    median are speeds of the series, and no speed is below the minimum or
    above the maximum. *)
Theorem chart_statistics (wind times : list json) (speeds : list pyfloat)
  (sline : list N)
  (Hc : collect strptime_hm (py_last 30 wind) [] [] = Ok (times, speeds))
  (Hne : speeds <> []) (Hs : sparkline speeds = Ok sline) :
  exists vmin vmax median,
    create_wind_speed_plot strptime_hm (JList wind)
      = Ok (Chart sline vmin vmax median (hd (JStr "") times) (last times (JStr ""))) /\
    List.length sline = List.length speeds /\
    (List.length speeds <= 30)%nat /\
    (List.length speeds <= List.length times)%nat /\
    In vmin speeds /\ In vmax speeds /\
    nth_error speeds (List.length speeds / 2) = Some median /\
    (forall v, In v speeds -> f_lt v vmin = false /\ f_gt v vmax = false).
Proof.
  destruct speeds as [|s0 ss]; [contradiction|].
  destruct (plot_chart strptime_hm _ Hc) as (m & Hm & Hp).
  destruct (collect_grows _ _ _ Hc) as (ts' & ss' & Ht & Hss & H1 & H2).
  simpl in Ht, Hss. subst ts' ss'.
  assert (H30 : (List.length (py_last 30 wind) <= 30)%nat) by (rewrite py_last_length; lia).
  exists (py_min s0 ss), (py_max s0 ss), m.
  split; [rewrite Hp, Hs; reflexivity|].
  split; [exact (proj1 (sparkline_length _ Hs))|].
  split; [lia|]. split; [exact H1|].
  split; [apply py_min_In|]. split; [apply py_max_In|].
  split; [exact Hm|].
  intros v Hv. apply extremes_bound, Hv.
Qed.


(** X13: a time tag that is a non-zero number cannot be labelled: the
    handler of the date parsing slices it and raises.  When the first entry
    of the window has such a tag and a speed, the plot raises [TypeError]. *)
Theorem numeric_time_tag_raises (l : list json) (e : json) (rest : list json) (z : Z)
  (Hw : py_last 30 l = e :: rest) (Hd : is_dict e)
  (Ht : field "time_tag" JNull e = JInt z) (Hz : z <> 0%Z)
  (Hs : field "speed" JNull e <> JNull) :
  create_wind_speed_plot strptime_hm (JList l) = Raise TypeError.
Proof.
  destruct l as [|x l]; [discriminate|].
  unfold create_wind_speed_plot. cbn [truthy negb]. rewrite Hw.
  cbn [collect]. rewrite !(FetcherSpec.py_get_field _ _ _ Hd). cbn [bind].
  rewrite Ht. cbn [truthy].
  assert (Ez : (z =? 0)%Z = false) by (apply Z.eqb_neq; exact Hz).
  rewrite Ez. cbn [negb orb].
  destruct (field "speed" JNull e); try contradiction; reflexivity.
Qed.

End WindPlotExtra.

Lemma plot_without_valid_entries_witness :
  create_wind_speed_plot clock
    (JList [JObj [("speed", JFloat (f_of_Z 400))]; JObj [("time_tag", JStr "t")]])
  = Ok NoValidData.
Proof.
  apply plot_without_valid_entries; [discriminate|].
  apply Forall_cons; [split; [exact I | left; reflexivity]|].
  apply Forall_cons; [split; [exact I | right; reflexivity]|].
  apply Forall_nil.
Defined.

Lemma chart_statistics_witness :
  exists vmin vmax median,
    create_wind_speed_plot clock (JList median_example)
      = Ok (Chart [0x2584; 0x2581; 0x2588]%N vmin vmax median
              (JStr "00:00") (JStr "00:02")) /\
    In vmin [f_of_Z 5; f_of_Z 1; f_of_Z 9] /\
    nth_error [f_of_Z 5; f_of_Z 1; f_of_Z 9] 1 = Some median.
Proof.
  assert (Hne : [f_of_Z 5; f_of_Z 1; f_of_Z 9] <> []) by discriminate.
  destruct (@chart_statistics clock median_example
              [JStr "00:00"; JStr "00:01"; JStr "00:02"]
              [f_of_Z 5; f_of_Z 1; f_of_Z 9] [0x2584; 0x2581; 0x2588]%N
              eq_refl Hne (proj2 sparkline_example))
    as (vmin & vmax & m & Hp & _ & _ & _ & Hmin & _ & Hm & _).
  exists vmin, vmax, m. split; [exact Hp|]. split; [exact Hmin | exact Hm].
Defined.

Lemma numeric_time_tag_raises_witness :
  create_wind_speed_plot clock
    (JList [JObj [("time_tag", JInt 1704067200); ("speed", JFloat (f_of_Z 400))]])
  = Raise TypeError.
Proof.
  apply (@numeric_time_tag_raises clock
           [JObj [("time_tag", JInt 1704067200); ("speed", JFloat (f_of_Z 400))]]
           (JObj [("time_tag", JInt 1704067200); ("speed", JFloat (f_of_Z 400))])
           [] 1704067200 eq_refl I eq_refl);
    discriminate.
Defined.

End PlotterExtra.

(** ** The panels *)

Module PanelsExtra.

Import Dashboard Reference.

Lemma py_str_repeat_small (max_str_len n : Z) :
  (- 2 ^ 63 <= n <= 2 ^ 63 - 1)%Z -> (n <= max_str_len)%Z ->
  py_str_repeat max_str_len n = Ok (Z.to_nat n).
Proof.
  intros Hn Hmax. unfold py_str_repeat.
  destruct (Z.ltb_spec n (- 2 ^ 63)) as [H1|H1]; [lia|].
  destruct (Z.ltb_spec (2 ^ 63 - 1) n) as [H2|H2]; [lia|]. cbn [orb].
  destruct (Z.leb_spec n 0) as [H0|H0].
  - destruct n; try reflexivity. lia.
  - destruct (Z.ltb_spec max_str_len n) as [H3|H3]; [lia|]. reflexivity.
Qed.

Lemma py_str_repeat_large (max_str_len n : Z) :
  (0 < n)%Z -> (max_str_len < n)%Z ->
  exists e, py_str_repeat max_str_len n = Raise e /\ is_Exception e = true.
Proof.
  intros H0 Hn. unfold py_str_repeat.
  destruct ((n <? - 2 ^ 63) || (2 ^ 63 - 1 <? n))%Z.
  - eexists. split; reflexivity.
  - destruct (Z.leb_spec n 0) as [H0'|_]; [lia|].
    destruct (Z.ltb_spec max_str_len n) as [H2|H2]; [|lia].
    eexists. split; reflexivity.
Qed.

Lemma two_63 : (2 ^ 63 = 9223372036854775808)%Z.
Proof. reflexivity. Qed.

(** X14: the K-index panel shows the index of the last sample.  The status
    is Quiet below 4, Active from 4 to below 6 and Storm from 6 on; for an
    index from 0 to below 10 the bar has 9 cells of which the integer part
    of the index are filled, and from 10 on the bar holds only filled cells,
    more than 9 of them, as long as a string of that length can be built:
    beyond that the panel raises. *)
Theorem kp_panel_levels (max_str_len : Z) (l : list json) (recent : json)
  (kp : pyfloat) (n : Z)
  (Hmax : (9 <= max_str_len <= 2 ^ 63 - 1)%Z)
  (Hlast : py_item_last (JList l) = Ok recent) (Hd : is_dict recent)
  (Hk : py_float (field "k_index" (JInt 0) recent) = Ok kp)
  (Hv : is_binary64 kp = true) (Hn : f_int kp = Ok n) :
  exists level,
    geomagnetic_panel max_str_len (JList l)
      = (filled <- py_str_repeat max_str_len n ;;
         empty <- py_str_repeat max_str_len (9 - n) ;;
         Ok (KIndex kp level filled empty)) /\
    (f_lt kp (f_of_Z 4) = true -> level = "Quiet") /\
    (f_lt kp (f_of_Z 4) = false -> f_lt kp (f_of_Z 6) = true -> level = "Active") /\
    (f_lt kp (f_of_Z 6) = false -> level = "Storm") /\
    (f_lt kp (f_of_Z 0) = false -> f_lt kp (f_of_Z 10) = true ->
       (0 <= n <= 9)%Z /\
       geomagnetic_panel max_str_len (JList l)
         = Ok (KIndex kp level (Z.to_nat n) (9 - Z.to_nat n))) /\
    (f_lt kp (f_of_Z 10) = false ->
       (10 <= n)%Z /\
       ((n <= max_str_len)%Z ->
        geomagnetic_panel max_str_len (JList l)
          = Ok (KIndex kp level (Z.to_nat n) 0)) /\
       ((max_str_len < n)%Z ->
        exists e, geomagnetic_panel max_str_len (JList l) = Raise e /\
                  is_Exception e = true)).
Proof.
  assert (Hne : truthy (JList l) = true).
  { destruct l; [discriminate Hlast | reflexivity]. }
  assert (Hpanel : geomagnetic_panel max_str_len (JList l)
                   = (filled <- py_str_repeat max_str_len n ;;
                      empty <- py_str_repeat max_str_len (9 - n) ;;
                      Ok (KIndex kp
                            (if f_lt kp (f_of_Z 4) then "Quiet"
                             else if f_lt kp (f_of_Z 6) then "Active" else "Storm")
                            filled empty))).
  { unfold geomagnetic_panel. rewrite Hne. cbn [negb]. rewrite Hlast. cbn [bind].
    rewrite (FetcherSpec.py_get_field _ _ _ Hd). cbn [bind]. rewrite Hk.
    cbn [bind]. rewrite Hn. cbn [bind].
    destruct (py_str_repeat max_str_len n); reflexivity. }
  eexists. split; [exact Hpanel|].
  split; [intros ->; reflexivity|].
  split; [intros -> ->; reflexivity|].
  split.
  { intros H6.
    destruct (f_lt kp (f_of_Z 4)) eqn:H4; [|rewrite H6; reflexivity].
    assert (H46 : f_lt (f_of_Z 4) (f_of_Z 6) = true) by (vm_compute; reflexivity).
    rewrite (f_lt_trans _ _ _ H4 H46) in H6. discriminate. }
  split.
  - intros H0 H10. pose proof (f_int_below_ten _ Hv H0 H10 Hn) as Hr.
    pose proof two_63 as E63.
    split; [exact Hr|]. rewrite Hpanel.
    rewrite py_str_repeat_small by lia. cbn [bind].
    rewrite py_str_repeat_small by lia. cbn [bind].
    do 2 f_equal. lia.
  - intros H10. pose proof (f_int_from_ten _ Hv H10 Hn) as Hr.
    pose proof two_63 as E63.
    split; [exact Hr|]. split.
    + intros Hfit. rewrite Hpanel.
      rewrite py_str_repeat_small by lia. cbn [bind].
      rewrite py_str_repeat_small by lia. cbn [bind].
      do 2 f_equal. lia.
    + intros Hbig. rewrite Hpanel.
      destruct (@py_str_repeat_large max_str_len n) as (e & He & Hex); try lia.
      exists e. rewrite He. split; [reflexivity | exact Hex].
Qed.

Lemma kp_panel_levels_witness :
  geomagnetic_panel 1000 (JList [JObj [("k_index", JStr "4.67")]])
    = Ok (KIndex (f_of_decimal false 467 (-2)) "Active" 4 5) /\
  geomagnetic_panel 1000 (JList [JObj [("k_index", JInt 12)]])
    = Ok (KIndex (f_of_Z 12) "Storm" 12 0) /\
  (exists e, geomagnetic_panel 1000 (JList [JObj [("k_index", JStr "1e300")]])
             = Raise e /\ is_Exception e = true).
Proof.
  assert (Hmax : (9 <= 1000 <= 2 ^ 63 - 1)%Z) by (split; [lia | vm_compute; discriminate]).
  split; [|split].
  - destruct (@kp_panel_levels 1000 [JObj [("k_index", JStr "4.67")]]
                (JObj [("k_index", JStr "4.67")]) (f_of_decimal false 467 (-2)) 4
                Hmax eq_refl I)
      as (level & Hp & _ & Ha & _ & Hb & _);
      [vm_compute; reflexivity | vm_compute; reflexivity | vm_compute; reflexivity |].
    destruct Hb as [_ Hb]; [vm_compute; reflexivity | vm_compute; reflexivity |].
    rewrite Hb. rewrite Ha by (vm_compute; reflexivity). reflexivity.
  - destruct (@kp_panel_levels 1000 [JObj [("k_index", JInt 12)]]
                (JObj [("k_index", JInt 12)]) (f_of_Z 12) 12
                Hmax eq_refl I)
      as (level & Hp & _ & _ & Hs & _ & Hb);
      [vm_compute; reflexivity | vm_compute; reflexivity | vm_compute; reflexivity |].
    destruct Hb as (_ & Hb & _); [vm_compute; reflexivity|].
    rewrite Hb by lia. rewrite Hs by (vm_compute; reflexivity). reflexivity.
  - destruct (@kp_panel_levels 1000 [JObj [("k_index", JStr "1e300")]]
                (JObj [("k_index", JStr "1e300")]) (f_of_decimal false 1 300)
                (match f_int (f_of_decimal false 1 300) with
                 | Ok z => z
                 | Raise _ => 0%Z
                 end)
                Hmax eq_refl I)
      as (level & Hp & _ & _ & _ & _ & Hb);
      [vm_compute; reflexivity | vm_compute; reflexivity | vm_compute; reflexivity |].
    destruct Hb as (Hge & _ & Hb); [vm_compute; reflexivity|].
    apply Hb. vm_compute. reflexivity.
Defined.

(** X15: the panel reads the key [k_index]; a last sample without that key
    is shown as index 0, Quiet, with an empty bar of 9 cells, whatever other
    keys it has. *)
Theorem kp_panel_without_key (max_str_len : Z) (l : list json) (recent : json)
  (Hmax : (9 <= max_str_len)%Z)
  (Hlast : py_item_last (JList l) = Ok recent) (Hd : is_dict recent)
  (Hm : missing "k_index" recent) :
  geomagnetic_panel max_str_len (JList l) = Ok (KIndex (f_of_Z 0) "Quiet" 0 9).
Proof.
  assert (Hne : truthy (JList l) = true).
  { destruct l; [discriminate Hlast | reflexivity]. }
  unfold geomagnetic_panel. rewrite Hne. cbn [negb]. rewrite Hlast. cbn [bind].
  rewrite (FetcherSpec.py_get_field _ _ _ Hd). cbn [bind].
  rewrite (FetcherSpec.field_missing _ _ _ Hm).
  change (py_float (JInt 0)) with (Ok (f_of_Z 0)). cbn [bind].
  change (f_int (f_of_Z 0)) with (Ok 0%Z). cbn [bind].
  pose proof two_63 as E63.
  rewrite py_str_repeat_small by lia. cbn [bind].
  rewrite py_str_repeat_small by lia. reflexivity.
Qed.

Lemma kp_panel_without_key_witness :
  geomagnetic_panel 1000
    (JList [JObj [("time_tag", JStr "2024-01-01T00:00:00"); ("kp_index", JInt 7)]])
  = Ok (KIndex (f_of_Z 0) "Quiet" 0 9).
Proof.
  apply (@kp_panel_without_key 1000
           [JObj [("time_tag", JStr "2024-01-01T00:00:00"); ("kp_index", JInt 7)]]
           (JObj [("time_tag", JStr "2024-01-01T00:00:00"); ("kp_index", JInt 7)]));
    [lia | reflexivity | exact I | reflexivity].
Defined.

(** X16: the flux panel compares the last sample with the one before it:
    the arrow rises when today's flux is above yesterday's, falls when it is
    below, and is steady otherwise, as when they are equal; with a single
    sample yesterday is today and the arrow is steady. *)
Theorem flux_panel_trend (older : list json) (previous latest : json) (t y : pyfloat)
  (Hl : is_dict latest) (Hp : is_dict previous)
  (Ht : py_float (field "flux" (JInt 0) latest) = Ok t)
  (Hy : py_float (field "flux" (JInt 0) previous) = Ok y) :
  (exists arrow,
     solar_flux_panel (JList (older ++ [previous; latest])) = Ok (Flux t y arrow) /\
     (f_gt t y = true -> arrow = Rising) /\
     (f_lt t y = true -> arrow = Falling) /\
     (f_gt t y = false -> f_lt t y = false -> arrow = Steady) /\
     (f_eq t y = true -> arrow = Steady)) /\
  solar_flux_panel (JList [latest]) = Ok (Flux t t Steady).
Proof.
  split.
  - unfold solar_flux_panel.
    assert (Hne : truthy (JList (older ++ [previous; latest])) = true).
    { destruct older; reflexivity. }
    rewrite Hne. cbn [negb].
    assert (Hrev : rev (older ++ [previous; latest]) = latest :: previous :: rev older).
    { rewrite rev_app_distr. reflexivity. }
    unfold py_item_last, py_item_last2. rewrite Hrev. cbn [bind].
    rewrite !(FetcherSpec.py_get_field _ _ _ Hl). cbn [bind]. rewrite Ht. cbn [bind py_len].
    assert (Hlen : (1 <? List.length (older ++ [previous; latest]))%nat = true).
    { apply Nat.ltb_lt. rewrite length_app. simpl. lia. }
    rewrite Hlen. cbn [bind].
    rewrite !(FetcherSpec.py_get_field _ _ _ Hp). cbn [bind]. rewrite Hy. cbn [bind].
    eexists. split; [reflexivity|].
    split; [intros ->; reflexivity|].
    split; [|split].
    + intros H. unfold f_gt. rewrite (f_lt_asym _ _ H), H. reflexivity.
    + intros -> ->. reflexivity.
    + intros H. destruct (f_eq_not_lt _ _ H) as [H1 H2].
      unfold f_gt. rewrite H2, H1. reflexivity.
  - unfold solar_flux_panel. cbn [truthy negb py_item_last rev app bind].
    rewrite !(FetcherSpec.py_get_field _ _ _ Hl). cbn [bind]. rewrite Ht.
    cbn [bind py_len List.length Nat.ltb Nat.leb]. unfold f_gt.
    rewrite f_lt_irrefl. reflexivity.
Qed.

Lemma flux_panel_trend_witness :
  solar_flux_panel (JList [JObj [("flux", JInt 150)]; JObj [("flux", JStr "148.5")];
                           JObj [("flux", JInt 152)]])
    = Ok (Flux (f_of_Z 152) (f_of_decimal false 1485 (-1)) Rising) /\
  solar_flux_panel (JList [JObj [("flux", JInt 9007199254740992)];
                           JObj [("flux", JInt 9007199254740993)]])
    = Ok (Flux (f_of_Z 9007199254740992) (f_of_Z 9007199254740992) Steady).
Proof.
  split.
  - destruct (@flux_panel_trend [JObj [("flux", JInt 150)]]
                (JObj [("flux", JStr "148.5")]) (JObj [("flux", JInt 152)])
                (f_of_Z 152) (f_of_decimal false 1485 (-1)) I I)
      as ((arrow & Hp & Hr & _) & _);
      [vm_compute; reflexivity | vm_compute; reflexivity |].
    cbn [app] in Hp.
    rewrite Hp. rewrite Hr by (vm_compute; reflexivity). reflexivity.
  - destruct (@flux_panel_trend [] (JObj [("flux", JInt 9007199254740992)])
                (JObj [("flux", JInt 9007199254740993)])
                (f_of_Z 9007199254740992) (f_of_Z 9007199254740992) I I)
      as ((arrow & Hp & _ & _ & _ & He) & _);
      [vm_compute; reflexivity | vm_compute; reflexivity |].
    cbn [app] in Hp.
    rewrite Hp. rewrite He by (vm_compute; reflexivity). reflexivity.
Defined.




(** A count that is text makes the sum, and the panel, raise. *)
Lemma sunspot_panel_text_count :
  sunspot_panel (JList [JObj [("spot_count", JStr "12")]]) = Raise TypeError.
Proof. reflexivity. Qed.

(** *** Panels on what the fetcher returns *)

Lemma mapM_raise {A B : Type} (f : A -> result B) (e : pyexc) (l : list A) :
  (forall x, In x l -> f x = Raise e \/ exists b, f x = Ok b) ->
  (exists x, In x l /\ f x = Raise e) ->
  mapM f l = Raise e.
Proof.
  induction l as [|a l IH]; intros Hall [x [Hin Hx]]; [contradiction|].
  cbn [mapM]. destruct (Hall a (or_introl eq_refl)) as [Ha|[b Ha]]; rewrite Ha.
  - reflexivity.
  - cbn [bind]. rewrite IH.
    + reflexivity.
    + intros y Hy. apply Hall. right. exact Hy.
    + destruct Hin as [<-|Hin]; [congruence|]. exists x. split; assumption.
Qed.

Lemma mapM_map {A B C : Type} (f : B -> result C) (g : A -> B) (l : list A) :
  mapM f (map g l) = mapM (fun x => f (g x)) l.
Proof.
  induction l as [|a l IH]; [reflexivity|].
  cbn [map mapM]. rewrite IH. reflexivity.
Qed.

Lemma firstn_nonempty {A : Type} (n : nat) (l : list A) :
  l <> [] -> firstn (S n) l <> [].
Proof. destruct l; [contradiction | discriminate]. Qed.

Lemma firstn_five_map {A B : Type} (f : A -> B) (l : list A) :
  firstn 5 (map f (firstn 5 l)) = map f (firstn 5 l).
Proof.
  apply firstn_all2. rewrite length_map, length_firstn. lia.
Qed.

Lemma alerts_fetched (self : DataFetcher.t) (data : list json) :
  DataFetcher.session self (DataFetcher.nasa_base self ++ "notifications")
    (Some [("type", "all"); ("api_key", DataFetcher.nasa_api_key self)]) = Ok (JList data) ->
  data <> [] -> Forall alert_ok (firstn 5 data) ->
  DataFetcher.get_space_weather_alerts self = Ok (JList (map alert_event (firstn 5 data))).
Proof.
  intros H Hne Hok. unfold DataFetcher.get_space_weather_alerts.
  rewrite (FetcherSpec.make_request_ok _ _ _ H).
  destruct data as [|d data]; [contradiction|].
  cbn [bind truthy negb py_slice_to py_iter].
  rewrite (FetcherSpec.mapM_Forall DataFetcher.alert_record alert_event
             FetcherSpec.alert_record_ok Hok).
  reflexivity.
Qed.

Lemma alert_line_of_record a :
  alert_line (alert_event a)
    = (date <- py_slice_to 10 (field "messageIssueTime" JNull a) ;;
       Ok (field "messageType" JNull a, date)).
Proof. reflexivity. Qed.

(** X18: the alerts panel on the records the fetcher returns.  When each of
    the (at most five) alerts has a textual issue time, the panel has one
    line per record with the message type and the first 10 characters of
    the issue time.  When one of them has no issue time, the record holds
    null for it, the panel's ["N/A"] default is not used, and the panel
    raises [TypeError]. *)
Theorem alerts_panel_on_fetched_records (self : DataFetcher.t) (data : list json)
  (H : DataFetcher.session self (DataFetcher.nasa_base self ++ "notifications")
         (Some [("type", "all"); ("api_key", DataFetcher.nasa_api_key self)])
       = Ok (JList data))
  (Hne : data <> []) (Hok : Forall alert_ok (firstn 5 data)) :
  exists records,
    DataFetcher.get_space_weather_alerts self = Ok (JList records) /\
    (Forall (fun a => exists t, field "messageIssueTime" JNull a = JStr t) (firstn 5 data) ->
       alerts_panel (JList records)
         = Ok (AlertLines
                 (map (fun a => (field "messageType" JNull a, JStr (str_take 10 (issue_text a))))
                    (firstn 5 data)))) /\
    ((exists a, In a (firstn 5 data) /\ missing "messageIssueTime" a) ->
       alerts_panel (JList records) = Raise TypeError).
Proof.
  exists (map alert_event (firstn 5 data)).
  split; [exact (alerts_fetched _ H Hne Hok)|].
  assert (Hrec : map alert_event (firstn 5 data) <> []).
  { intros E. apply map_eq_nil in E. exact (firstn_nonempty 4 Hne E). }
  assert (Hpanel : alerts_panel (JList (map alert_event (firstn 5 data)))
                   = (lines <- mapM alert_line (map alert_event (firstn 5 data)) ;;
                      Ok (AlertLines lines))).
  { unfold alerts_panel.
    destruct (map alert_event (firstn 5 data)) as [|r rs] eqn:E; [contradiction|].
    cbn [truthy negb py_slice_to bind py_iter]. rewrite <- E.
    rewrite firstn_five_map. reflexivity. }
  rewrite Hpanel. split.
  - intros Ht. rewrite mapM_map.
    rewrite (@mapM_ok_map _ _ (fun a => alert_line (alert_event a))
               (fun a => (field "messageType" JNull a, JStr (str_take 10 (issue_text a))))).
    + reflexivity.
    + intros a Ha. rewrite Forall_forall in Ht. destruct (Ht a Ha) as [t Hta].
      rewrite alert_line_of_record. unfold issue_text. rewrite Hta. reflexivity.
  - intros (a & Hin & Hm). rewrite (@mapM_raise _ _ alert_line TypeError); [reflexivity| |].
    + intros r Hr. apply in_map_iff in Hr. destruct Hr as (a' & <- & _).
      rewrite alert_line_of_record.
      destruct (field "messageIssueTime" JNull a'); cbn [py_slice_to bind];
        try (left; reflexivity); right; eexists; reflexivity.
    + exists (alert_event a). split; [apply in_map; exact Hin|].
      rewrite alert_line_of_record, (FetcherSpec.field_missing _ _ _ Hm). reflexivity.
Qed.

Lemma alerts_panel_on_fetched_records_witness :
  exists records,
    DataFetcher.get_space_weather_alerts (serving (Ok (JList alerts_example)))
      = Ok (JList records) /\
    alerts_panel (JList records) = Raise TypeError.
Proof.
  assert (Hok : Forall alert_ok (firstn 5 alerts_example)).
  { repeat constructor. exists "CME observed by the coronagraph". reflexivity. }
  assert (Hne : alerts_example <> []) by discriminate.
  destruct (@alerts_panel_on_fetched_records (serving (Ok (JList alerts_example)))
              alerts_example eq_refl Hne Hok) as (records & Hg & _ & Hr).
  exists records. split; [exact Hg|]. apply Hr.
  eexists. split; [left; reflexivity | reflexivity].
Defined.

Lemma events_fetched (rec : json -> result json) (ev : json -> json) (P : json -> Prop)
  (data : list json) :
  (forall x, P x -> rec x = Ok (ev x)) -> data <> [] -> Forall P data ->
  first_five rec (JList data) = Ok (JList (map ev (firstn 5 data))).
Proof.
  intros Hok Hne HP. unfold first_five.
  destruct data as [|d data]; [contradiction|]. cbn [truthy negb py_iter bind].
  rewrite (FetcherSpec.mapM_Forall rec ev Hok HP). cbn [bind].
  rewrite firstn_map. reflexivity.
Qed.

Lemma renderable_text (v : json) : text_or_null v -> renderable (Cell v) = true.
Proof. intros [->|[text ->]]; reflexivity. Qed.

Lemma text_cells_In (keys : list string) (e : json) (k : string) :
  text_cells keys e -> In k keys -> renderable (Cell (field k JNull e)) = true.
Proof.
  unfold text_cells. rewrite Forall_forall. intros H Hk.
  apply renderable_text, H, Hk.
Qed.

(** A cell that is a number is refused by the table, and the panel raises. *)
Lemma cme_panel_numeric_cell :
  cme_panel (JList [JObj [("startTime", JInt 1704067200); ("sourceLocation", JNull);
                          ("catalog", JNull); ("link", JStr "")]])
  = Raise (OtherException "NotRenderableError").
Proof. reflexivity. Qed.

(** X19: the three table panels on the records the fetcher returns, when
    the values shown as they are (times, class, location) are text or
    missing upstream.  Every record has all of its keys, so the panels'
    defaults (["N/A"], ["#"]) are never used: each cell is the value the
    fetcher put in the record, null for a key that was missing upstream and
    the empty string for a missing link. *)
Theorem table_panels_on_fetched_records (self : DataFetcher.t)
  (start_date end_date : string) (cdata fdata sdata : list json)
  (Hc : DataFetcher.session self (DataFetcher.nasa_base self ++ "CME")
          (DataFetcher.date_params self start_date end_date) = Ok (JList cdata))
  (Hf : DataFetcher.session self (DataFetcher.nasa_base self ++ "FLR")
          (DataFetcher.date_params self start_date end_date) = Ok (JList fdata))
  (Hs : DataFetcher.session self (DataFetcher.nasa_base self ++ "GST")
          (DataFetcher.date_params self start_date end_date) = Ok (JList sdata))
  (Hcne : cdata <> []) (Hfne : fdata <> []) (Hsne : sdata <> [])
  (Hcd : Forall is_dict cdata) (Hfd : Forall is_dict fdata)
  (Hsd : Forall storm_ok sdata)
  (Hct : Forall (text_cells ["startTime"; "sourceLocation"]) (firstn 5 cdata))
  (Hft : Forall (text_cells ["beginTime"; "classType"; "sourceLocation"])
           (firstn 5 fdata))
  (Hst : Forall (text_cells ["startTime"]) (firstn 5 sdata)) :
  (exists cmes,
     DataFetcher.get_cme_events self start_date end_date = Ok cmes /\
     cme_panel cmes
       = Ok (map (fun e => [Cell (field "startTime" JNull e);
                            Cell (field "sourceLocation" JNull e);
                            LinkTo (field "link" (JStr "") e)])
               (firstn 5 cdata))) /\
  (exists flares,
     DataFetcher.get_solar_flares self start_date end_date = Ok flares /\
     solar_flare_panel flares
       = Ok (map (fun f => [Cell (field "beginTime" JNull f);
                            Cell (field "classType" JNull f);
                            Cell (field "sourceLocation" JNull f);
                            LinkTo (field "link" (JStr "") f)])
               (firstn 5 fdata))) /\
  (exists storms,
     DataFetcher.get_geomagnetic_storms self start_date end_date = Ok storms /\
     geomag_storm_panel storms
       = Ok (map (fun s => [Cell (field "startTime" JNull s);
                            StrOf (storm_kp s);
                            LinkTo (field "link" (JStr "") s)])
               (firstn 5 sdata))).
Proof.
  assert (Ec : DataFetcher.get_cme_events self start_date end_date
               = Ok (JList (map cme_event (firstn 5 cdata)))).
  { unfold DataFetcher.get_cme_events. rewrite (FetcherSpec.make_request_ok _ _ _ Hc).
    exact (events_fetched DataFetcher.cme_record cme_event FetcherSpec.cme_record_ok Hcne Hcd). }
  assert (Ef : DataFetcher.get_solar_flares self start_date end_date
               = Ok (JList (map flare_event (firstn 5 fdata)))).
  { unfold DataFetcher.get_solar_flares. rewrite (FetcherSpec.make_request_ok _ _ _ Hf).
    exact (events_fetched DataFetcher.flare_record flare_event FetcherSpec.flare_record_ok
             Hfne Hfd). }
  assert (Es : DataFetcher.get_geomagnetic_storms self start_date end_date
               = Ok (JList (map storm_event (firstn 5 sdata)))).
  { unfold DataFetcher.get_geomagnetic_storms. rewrite (FetcherSpec.make_request_ok _ _ _ Hs).
    exact (events_fetched DataFetcher.storm_record storm_event FetcherSpec.storm_record_ok
             Hsne Hsd). }
  rewrite Forall_forall in Hct, Hft, Hst.
  split; [|split].
  - eexists. split; [exact Ec|]. unfold cme_panel.
    destruct (map cme_event (firstn 5 cdata)) as [|r rs] eqn:E.
    { apply map_eq_nil in E. destruct (firstn_nonempty 4 Hcne E). }
    cbn [truthy negb py_slice_to bind py_iter]. rewrite <- E.
    rewrite firstn_five_map, mapM_map.
    apply mapM_ok_map. intros e He.
    unfold cme_row, cme_event.
    cbn [py_get assoc String.eqb Ascii.eqb Bool.eqb bind].
    unfold add_row. cbn [forallb].
    rewrite (text_cells_In "startTime" (Hct e He)) by (simpl; tauto).
    rewrite (text_cells_In "sourceLocation" (Hct e He)) by (simpl; tauto).
    reflexivity.
  - eexists. split; [exact Ef|]. unfold solar_flare_panel.
    destruct (map flare_event (firstn 5 fdata)) as [|r rs] eqn:E.
    { apply map_eq_nil in E. destruct (firstn_nonempty 4 Hfne E). }
    cbn [truthy negb bind py_iter]. rewrite <- E. rewrite mapM_map.
    apply mapM_ok_map. intros e He.
    unfold flare_row, flare_event.
    cbn [py_get assoc String.eqb Ascii.eqb Bool.eqb bind].
    unfold add_row. cbn [forallb].
    rewrite (text_cells_In "beginTime" (Hft e He)) by (simpl; tauto).
    rewrite (text_cells_In "classType" (Hft e He)) by (simpl; tauto).
    rewrite (text_cells_In "sourceLocation" (Hft e He)) by (simpl; tauto).
    reflexivity.
  - eexists. split; [exact Es|]. unfold geomag_storm_panel.
    destruct (map storm_event (firstn 5 sdata)) as [|r rs] eqn:E.
    { apply map_eq_nil in E. destruct (firstn_nonempty 4 Hsne E). }
    cbn [truthy negb bind py_iter]. rewrite <- E. rewrite mapM_map.
    apply mapM_ok_map. intros e He.
    unfold storm_row, storm_event.
    cbn [py_get assoc String.eqb Ascii.eqb Bool.eqb bind].
    unfold add_row. cbn [forallb].
    rewrite (text_cells_In "startTime" (Hst e He)) by (simpl; tauto).
    reflexivity.
Qed.

Lemma table_panels_on_fetched_records_witness :
  exists cmes,
    DataFetcher.get_cme_events
      (serving (Ok (JList [JObj [("startTime", JStr "2024-01-01T00:00Z");
                                 ("link", JStr "u")]])))
      "2024-01-01" "2024-01-08" = Ok cmes /\
    cme_panel cmes
      = Ok [[Cell (JStr "2024-01-01T00:00Z"); Cell JNull; LinkTo (JStr "u")]].
Proof.
  set (data := [JObj [("startTime", JStr "2024-01-01T00:00Z"); ("link", JStr "u")]]).
  assert (Hd : Forall is_dict data) by (repeat constructor).
  assert (Hs : Forall storm_ok data).
  { constructor; [split; [exact I | reflexivity] | constructor]. }
  assert (Hne : data <> []) by discriminate.
  assert (Hct : Forall (text_cells ["startTime"; "sourceLocation"]) (firstn 5 data)).
  { constructor; [|constructor].
    constructor; [right; eexists; reflexivity|].
    constructor; [left; reflexivity | constructor]. }
  assert (Hft : Forall (text_cells ["beginTime"; "classType"; "sourceLocation"])
                  (firstn 5 data)).
  { constructor; [|constructor].
    repeat (constructor; [left; reflexivity|]). constructor. }
  assert (Hst : Forall (text_cells ["startTime"]) (firstn 5 data)).
  { constructor; [|constructor].
    constructor; [right; eexists; reflexivity | constructor]. }
  exact (proj1 (@table_panels_on_fetched_records
                  (serving (Ok (JList data)))
                  "2024-01-01" "2024-01-08" _ _ _ eq_refl eq_refl eq_refl
                  Hne Hne Hne Hd Hd Hs Hct Hft Hst)).
Defined.





Section WindPanelExtra.

Variable strptime_hm : string -> string -> option string.


End WindPanelExtra.


End PanelsExtra.

(** ** The refresh loop: further properties *)

Module LoopExtra.

Import Dashboard Reference DashboardSpec.

(** The state in which a block raises: the calls before the raising one
    have run, and the raising call is logged. *)
Lemma run_calls_raised_at w n cs : forall st st' e,
  run_calls w n cs st = (st', Some e) ->
  exists j c,
    nth_error cs j = Some c /\ w c = Some e /\
    st' = log n c (Some e) (fold_left (step n) (firstn j cs) st).
Proof.
  induction cs as [|c cs IH]; intros st st' e H; simpl in H; [discriminate|].
  destruct (w c) as [e'|] eqn:Hw.
  - injection H as <- <-. exists 0%nat, c. auto.
  - destruct (IH _ _ _ H) as (j & c' & Hj & Hc' & ->).
    exists (S j), c'. auto.
Qed.

(** Before the pause that ends it, the body of a cycle shows no frame. *)
Lemma body_prefix_frames n j st :
  (j < List.length cycle_body)%nat ->
  frames (fold_left (step n) (firstn j cycle_body) st) = frames st.
Proof.
  intros Hj. simpl in Hj.
  do 18 (destruct j as [|j]; [reflexivity|]). lia.
Qed.

Lemma body_completed_frames n st :
  frames (fold_left (step n) cycle_body st)
    = frames st ++ [shown (fold_left (step n) cycle_body st)].
Proof. reflexivity. Qed.

(** What a cycle did, by the way it ends. *)
Lemma cycle_cases (w : world) n st st' ctl :
  cycle w n st = (st', ctl) ->
  match ctl with
  | Continue =>
      run_calls (w n) n cycle_body st = (st', None) \/
      exists st1 e,
        run_calls (w n) n cycle_body st = (st1, Some e) /\ is_Exception e = true /\
        w n (Print (ErrorUpdating e)) = None /\ w n (Sleep 30) = None /\
        st' = step n (step n st1 (Print (ErrorUpdating e))) (Sleep 30)
  | Break =>
      exists st1,
        run_calls (w n) n cycle_body st = (st1, Some KeyboardInterrupt) /\
        w n (Print DashboardClosed) = None /\
        st' = step n st1 (Print DashboardClosed)
  | Propagate e' =>
      exists st1 e c,
        run_calls (w n) n cycle_body st = (st1, Some e) /\
        last (trace st') no_event = Called n c (Some e') /\
        (c = Print DashboardClosed \/ c = Print (ErrorUpdating e) \/ c = Sleep 30)
  end.
Proof.
  unfold cycle. destruct (run_calls (w n) n cycle_body st) as [st1 [e|]] eqn:Hb.
  2: { intros [= <- <-]. left. reflexivity. }
  assert (Hexc : e <> KeyboardInterrupt ->
            handle (w n) n (on_exception e) Continue st1 = (st', ctl) ->
            match ctl with
            | Continue =>
                (st1, Some e) = (st', None) \/
                exists st2 e0,
                  (st1, Some e) = (st2, Some e0) /\ is_Exception e0 = true /\
                  w n (Print (ErrorUpdating e0)) = None /\ w n (Sleep 30) = None /\
                  st' = step n (step n st2 (Print (ErrorUpdating e0))) (Sleep 30)
            | Break =>
                exists st2,
                  (st1, Some e) = (st2, Some KeyboardInterrupt) /\
                  w n (Print DashboardClosed) = None /\
                  st' = step n st2 (Print DashboardClosed)
            | Propagate e' =>
                exists st2 e0 c,
                  (st1, Some e) = (st2, Some e0) /\
                  last (trace st') no_event = Called n c (Some e') /\
                  (c = Print DashboardClosed \/ c = Print (ErrorUpdating e0) \/ c = Sleep 30)
            end).
  { intros Hne. unfold handle, on_exception. cbn [run_calls].
    destruct (w n (Print (ErrorUpdating e))) as [e1|] eqn:Hp.
    - intros [= <- <-]. exists st1, e, (Print (ErrorUpdating e)).
      split; [reflexivity|]. split; [|auto].
      simpl. apply last_last.
    - destruct (w n (Sleep 30)) as [e2|] eqn:Hs.
      + intros [= <- <-]. exists st1, e, (Sleep 30).
        split; [reflexivity|]. split; [|auto].
        simpl. apply last_last.
      + intros [= <- <-]. right. exists st1, e.
        split; [reflexivity|]. split; [destruct e; try reflexivity; contradiction|].
        auto. }
  destruct e; try (apply Hexc; discriminate).
  unfold handle, on_interrupt. cbn [run_calls].
  destruct (w n (Print DashboardClosed)) as [e1|] eqn:Hp.
  - intros [= <- <-]. exists st1, KeyboardInterrupt, (Print DashboardClosed).
    split; [reflexivity|]. split; [|auto]. simpl. apply last_last.
  - intros [= <- <-]. exists st1. auto.
Qed.

Lemma step_trace n st c : trace (step n st c) = trace st ++ [Called n c None].
Proof. unfold step. rewrite effect_trace. reflexivity. Qed.

Lemma body_raised (w : world) n st st1 e :
  run_calls (w n) n cycle_body st = (st1, Some e) ->
  frames st1 = frames st /\
  exists c pre, In c cycle_body /\ w n c = Some e /\
                trace st1 = pre ++ [Called n c (Some e)].
Proof.
  intros H. destruct (run_calls_raised_at _ _ _ _ H) as (j & c & Hj & Hw & ->).
  split.
  - simpl. apply body_prefix_frames. apply nth_error_Some. congruence.
  - exists c. eexists. split; [exact (nth_error_In _ _ Hj)|]. split; [exact Hw|].
    reflexivity.
Qed.

Lemma last_app_ne {A : Type} (l l' : list A) (d : A) :
  l' <> [] -> last (l ++ l') d = last l' d.
Proof.
  intros Hne. induction l as [|a l IH]; [reflexivity|].
  simpl. destruct (l ++ l') eqn:E; [|exact IH].
  apply app_eq_nil in E. destruct E as [_ E]. contradiction.
Qed.

Lemma cycle_continue_frames (w : world) n st st' :
  cycle w n st = (st', Continue) -> frames st' = frames st ++ [shown st'].
Proof.
  intros H.
  destruct (cycle_cases _ _ _ H) as [Hb|(st1 & e & Hb & He & Hp & Hs & ->)].
  - pose proof (run_calls_completed _ _ _ _ Hb) as E. subst st'.
    apply body_completed_frames.
  - destruct (body_raised _ _ _ Hb) as (Hf & _). simpl. rewrite Hf. reflexivity.
Qed.

Lemma pauses_app (t1 t2 : list event) : pauses (t1 ++ t2) = pauses t1 ++ pauses t2.
Proof. unfold pauses. apply flat_map_app. Qed.

(** The body makes no pause before its last statement. *)
Lemma body_prefix_pauses n j :
  (j < List.length cycle_body)%nat ->
  pauses (map (fun c => Called n c None) (firstn j cycle_body)) = [].
Proof.
  intros Hj. simpl in Hj.
  do 18 (destruct j as [|j]; [reflexivity|]). lia.
Qed.

Lemma raised_no_pause n c e : pauses [Called n c (Some e)] = [].
Proof. destruct c; reflexivity. Qed.

(** X21: a cycle after which the loop goes on makes exactly one pause that
    runs to its end, and the layout during that pause is the one the cycle
    leaves.  The pause is the standard one of 180 exactly when every call of
    the body returned; otherwise the body raised an exception, which was
    reported, and the pause is the one of 30, on the layout as the failing
    call left it. *)
Theorem one_pause_per_cycle (w : world) (n : nat) (st st' : state)
  (H : cycle w n st = (st', Continue)) :
  exists evs,
    trace st' = trace st ++ evs /\
    frames st' = frames st ++ [shown st'] /\
    ((run_calls (w n) n cycle_body st = (st', None) /\
      pauses evs = [180%Z] /\
      last (trace st') no_event = Called n (Sleep 180) None) \/
     (exists st1 e,
        run_calls (w n) n cycle_body st = (st1, Some e) /\ is_Exception e = true /\
        pauses evs = [30%Z] /\
        shown st' = shown st1 /\
        trace st' = trace st1 ++ [Called n (Print (ErrorUpdating e)) None;
                                  Called n (Sleep 30) None])).
Proof.
  pose proof (cycle_continue_frames _ _ _ H) as Hfr.
  destruct (cycle_cases _ _ _ H) as [Hb|(st1 & e & Hb & He & Hp & Hs & ->)].
  - pose proof (run_calls_completed _ _ _ _ Hb) as E. subst st'.
    exists (map (fun c => Called n c None) cycle_body).
    split; [apply fold_step_trace|]. split; [exact Hfr|].
    left. split; [exact Hb|]. split; [reflexivity|].
    rewrite fold_step_trace. rewrite last_app_ne by discriminate. reflexivity.
  - destruct (run_calls_raised_at _ _ _ _ Hb) as (j & c & Hj & Hw & ->).
    assert (Hlt : (j < List.length cycle_body)%nat).
    { apply nth_error_Some. congruence. }
    exists (map (fun c => Called n c None) (firstn j cycle_body)
            ++ [Called n c (Some e)]
            ++ [Called n (Print (ErrorUpdating e)) None; Called n (Sleep 30) None]).
    split.
    { rewrite !step_trace. cbn [log trace]. rewrite fold_step_trace.
      rewrite <- !app_assoc. reflexivity. }
    split; [exact Hfr|].
    right. eexists _, e. split; [exact Hb|]. split; [exact He|].
    split.
    { rewrite !pauses_app, (body_prefix_pauses n Hlt), raised_no_pause. reflexivity. }
    split; [reflexivity|].
    rewrite !step_trace. rewrite <- app_assoc. reflexivity.
Qed.

Lemma one_pause_per_cycle_witness :
  exists evs,
    trace (fst (cycle failing_update 2%nat (fst (cycle failing_update 1%nat initial))))
      = trace (fst (cycle failing_update 1%nat initial)) ++ evs /\
    pauses evs = [30%Z] /\
    pauses (trace (fst (cycle failing_update 1%nat initial))) = [180%Z].
Proof.
  destruct (@one_pause_per_cycle failing_update 2%nat
              (fst (cycle failing_update 1%nat initial))
              (fst (cycle failing_update 2%nat (fst (cycle failing_update 1%nat initial))))
              eq_refl)
    as (evs & Ht & _ & [(Hb & _)|(st1 & e & _ & _ & Hp & _)]).
  - vm_compute in Hb. discriminate Hb.
  - exists evs. split; [exact Ht|]. split; [exact Hp | reflexivity].
Defined.

Lemma cycle_goes_on (w : world)
  (Hki : forall n c, w n c <> Some KeyboardInterrupt)
  (Hp : forall n e, w n (Print (ErrorUpdating e)) = None)
  (Hs : forall n, w n (Sleep 30) = None) :
  forall n st, exists st', cycle w n st = (st', Continue).
Proof.
  intros n st. unfold cycle.
  destruct (run_calls (w n) n cycle_body st) as [st1 [e|]] eqn:Hb; [|eexists; reflexivity].
  destruct (body_raised _ _ _ Hb) as (_ & c & pre & _ & Hw & _).
  assert (Hne : e <> KeyboardInterrupt) by (intros ->; exact (Hki _ _ Hw)).
  assert (Hh : exists st', handle (w n) n (on_exception e) Continue st1 = (st', Continue)).
  { unfold handle, on_exception. cbn [run_calls]. rewrite Hp, Hs. eexists. reflexivity. }
  destruct e; try exact Hh. contradiction.
Qed.

(** X22: if the user never interrupts and neither the error report nor the
    recovery pause raises, [main] never returns and no exception leaves it,
    whatever the fetches and panel updates raise: after any number of cycles
    it is still looping, and every cycle has made one pause that ran to its
    end. *)
Theorem loop_never_stops (w : world)
  (Hki : forall n c, w n c <> Some KeyboardInterrupt)
  (Hp : forall n e, w n (Print (ErrorUpdating e)) = None)
  (Hs : forall n, w n (Sleep 30) = None) :
  forall fuel,
    snd (main w fuel) = Looping /\
    List.length (frames (fst (main w fuel))) = fuel.
Proof.
  assert (Hloop : forall fuel n st,
            snd (loop fuel w n st) = Looping /\
            List.length (frames (fst (loop fuel w n st)))
              = (List.length (frames st) + fuel)%nat).
  { induction fuel as [|fuel IH]; intros n st.
    - simpl. split; [reflexivity | lia].
    - cbn [loop]. destruct (@cycle_goes_on w Hki Hp Hs n st) as [st' Hc]. rewrite Hc.
      destruct (IH (S n) st') as [Ho Hl]. split; [exact Ho|].
      rewrite Hl, (cycle_continue_frames _ _ _ Hc).
      rewrite length_app. simpl. lia. }
  intros fuel. unfold main. destruct (Hloop fuel 1%nat initial) as [Ho Hl].
  split; [exact Ho | exact Hl].
Qed.

Lemma loop_never_stops_witness :
  snd (main failing_update 5) = Looping /\
  List.length (frames (fst (main failing_update 5))) = 5%nat.
Proof.
  apply (@loop_never_stops failing_update).
  - intros n c. unfold failing_update.
    destruct n as [|[|[|n]]]; try discriminate;
      destruct c as [f|r|secs|m]; try discriminate; destruct r; discriminate.
  - intros n e. unfold failing_update. destruct n as [|[|[|n]]]; reflexivity.
  - intros n. unfold failing_update. destruct n as [|[|[|n]]]; reflexivity.
Defined.

Lemma loop_returned (w : world) fuel : forall n st st',
  loop fuel w n st = (st', Returned) ->
  exists m c pre,
    In c cycle_body /\
    trace st' = pre ++ [Called m c (Some KeyboardInterrupt);
                        Called m (Print DashboardClosed) None].
Proof.
  induction fuel as [|fuel IH]; intros n st st' H; [discriminate|].
  cbn [loop] in H. destruct (cycle w n st) as [st1 ctl] eqn:Hc.
  destruct ctl as [| |e]; [exact (IH _ _ _ H)| |discriminate].
  injection H as <-.
  destruct (cycle_cases _ _ _ Hc) as (st0 & Hb & Hp & ->).
  destruct (body_raised _ _ _ Hb) as (_ & c & pre & Hin & _ & Ht).
  exists n, c, pre. split; [exact Hin|].
  rewrite step_trace, Ht, <- app_assoc. reflexivity.
Qed.

(** X23: when [main] returns, the last two events are a
    [KeyboardInterrupt] raised by a call of the cycle body (a fetch, a panel
    update or the standard pause) and the closing message, printed without
    failure; [main] returns in no other way. *)
Theorem return_follows_interrupt (w : world) (fuel : nat)
  (H : snd (main w fuel) = Returned) :
  exists m c pre,
    In c cycle_body /\
    trace (fst (main w fuel))
      = pre ++ [Called m c (Some KeyboardInterrupt);
                Called m (Print DashboardClosed) None].
Proof.
  unfold main in *. destruct (loop fuel w 1 initial) as [st' out] eqn:E.
  simpl in H. subst out. exact (loop_returned _ _ _ _ E).
Qed.

Lemma return_follows_interrupt_witness :
  exists m c pre,
    In c cycle_body /\
    trace (fst (main interrupted_pause 3))
      = pre ++ [Called m c (Some KeyboardInterrupt);
                Called m (Print DashboardClosed) None].
Proof.
  exact (@return_follows_interrupt interrupted_pause 3 eq_refl).
Defined.

Lemma loop_uncaught (w : world) fuel : forall n st st' e,
  loop fuel w n st = (st', Uncaught e) ->
  exists m c,
    last (trace st') no_event = Called m c (Some e) /\
    (c = Print DashboardClosed \/ (exists e0, c = Print (ErrorUpdating e0)) \/
     c = Sleep 30).
Proof.
  induction fuel as [|fuel IH]; intros n st st' e H; [discriminate|].
  cbn [loop] in H. destruct (cycle w n st) as [st1 ctl] eqn:Hc.
  destruct ctl as [| |e']; [exact (IH _ _ _ _ H)|discriminate|].
  injection H as <- <-.
  destruct (cycle_cases _ _ _ Hc) as (st0 & e0 & c & _ & Hl & Hcases).
  exists n, c. split; [exact Hl|].
  destruct Hcases as [->|[->| ->]]; eauto.
Qed.

(** X24: an exception leaves [main] only from inside a handler: the last
    event is then the closing message, the error report or the recovery
    pause of 30 raising that exception.  What a fetch, a panel update or the
    standard pause raises never leaves [main] directly. *)
Theorem exceptions_escape_from_handlers_only (w : world) (fuel : nat) (e : pyexc)
  (H : snd (main w fuel) = Uncaught e) :
  exists m c,
    last (trace (fst (main w fuel))) no_event = Called m c (Some e) /\
    (c = Print DashboardClosed \/ (exists e0, c = Print (ErrorUpdating e0)) \/
     c = Sleep 30).
Proof.
  unfold main in *. destruct (loop fuel w 1 initial) as [st' out] eqn:E.
  simpl in H. subst out. exact (loop_uncaught _ _ _ _ E).
Qed.

Lemma exceptions_escape_from_handlers_only_witness :
  exists m c,
    last (trace (fst (main interrupted_recovery 3))) no_event
      = Called m c (Some KeyboardInterrupt) /\
    (c = Print DashboardClosed \/ (exists e0, c = Print (ErrorUpdating e0)) \/
     c = Sleep 30).
Proof.
  exact (@exceptions_escape_from_handlers_only interrupted_recovery 3
           KeyboardInterrupt eq_refl).
Defined.

End LoopExtra.
